(** * Study Motivation Agent: the rule-based plan generator and the history store

    A shallow embedding of [app.py]: the two heuristics of
    [StudyMotivationAgent] ([analyze_reason_local], [build_plan_local]), the
    optional enrichment call [gemini_enrich], and the persistence helpers
    [load_history], [save_entry] and [clear_history].

    Text is a Rocq [string] holding the UTF-8 bytes of the Python [str].
    [lower] and [strip] are Python's [str.lower] and [str.strip] on ASCII
    text, that is on the strings [s] with [is_ascii s = true] (the form
    offers only ASCII choices for difficulty and mood).  Python's methods
    follow Unicode: they also case-map letters and strip white space beyond
    ASCII, which [lower] and [strip] leave as they are; what is stated in
    terms of the lowercased or stripped form of an input is therefore stated
    for ASCII inputs.  Python's [int] is [Z]. *)

From Stdlib Require Import String Ascii List ZArith Bool Lia DecimalString.
Import ListNotations.
Open Scope string_scope.
Open Scope Z_scope.

(** ** Python string operations *)

Module PyStr.

(** The string holds ASCII characters only: every byte is below 128. *)
Fixpoint is_ascii (s : string) : bool :=
  match s with
  | EmptyString => true
  | String c s' => (nat_of_ascii c <? 128)%nat && is_ascii s'
  end.

(** [str.isspace] on a single ASCII character: TAB, LF, VT, FF, CR, the four
    separators FS, GS, RS, US, and the space.  The white space beyond ASCII
    (U+0085, U+00A0, U+2003, ...) takes several bytes and is not covered. *)
Definition is_space (c : ascii) : bool :=
  let n := nat_of_ascii c in
  ((9 <=? n) && (n <=? 13) || (28 <=? n) && (n <=? 32))%nat.

Definition lower_char (c : ascii) : ascii :=
  let n := nat_of_ascii c in
  if ((65 <=? n) && (n <=? 90))%nat then ascii_of_nat (n + 32) else c.

(** [s.lower()] for an ASCII [s]: the letters A to Z are mapped, all other
    bytes are kept (so is a letter beyond ASCII that Python would map). *)
Fixpoint lower (s : string) : string :=
  match s with
  | EmptyString => EmptyString
  | String c s' => String (lower_char c) (lower s')
  end.

(** [s.lstrip()] for an ASCII [s] *)
Fixpoint lstrip (s : string) : string :=
  match s with
  | EmptyString => EmptyString
  | String c s' => if is_space c then lstrip s' else s
  end.

(** [s.rstrip()] for an ASCII [s] *)
Fixpoint rstrip (s : string) : string :=
  match s with
  | EmptyString => EmptyString
  | String c s' =>
      match rstrip s' with
      | EmptyString => if is_space c then EmptyString else String c EmptyString
      | r => String c r
      end
  end.

(** [s.strip()] for an ASCII [s]: ASCII white space is removed at both
    ends. *)
Definition strip (s : string) : string := rstrip (lstrip s).

(** [needle in hay] on two strings: substring test. *)
Fixpoint contains (needle hay : string) : bool :=
  String.prefix needle hay
  || match hay with
     | EmptyString => false
     | String _ hay' => contains needle hay'
     end.

(** [s in (a, b, ...)]: membership in a tuple of strings, by [==]. *)
Definition str_in (s : string) (l : list string) : bool :=
  existsb (String.eqb s) l.

(** Truthiness of a [str]: only the empty string is falsy. *)
Definition truthy (s : string) : bool :=
  match s with EmptyString => false | _ => true end.

(** [a or b] on strings. *)
Definition str_or (a b : string) : string := if truthy a then a else b.

(** [sep.join(l)] *)
Fixpoint join (sep : string) (l : list string) : string :=
  match l with
  | [] => EmptyString
  | [x] => x
  | x :: rest => x ++ sep ++ join sep rest
  end.

End PyStr.

(** ** The agent *)

Module Agent.
Import PyStr.

(** [parts.append(x)] *)
Definition append (parts : list string) (x : string) : list string :=
  parts ++ [x].

(** The sentence fragments of [analyze_reason_local]. *)
Definition challenge_fragment : string :=
  "The topic is challenging — it likely needs smaller steps and more practice.".
Definition manageable_fragment : string :=
  "Content is manageable but may need better structure or focused sessions.".
Definition easy_fragment : string :=
  "Material seems easy — the issue may be motivation or routine.".
Definition rest_fragment : string :=
  "Current energy/mood suggests short sessions and self-care first (rest, hydration).".
Definition formula_fragment : string :=
  "Formulas often need active practice and spaced repetition.".
Definition concept_fragment : string :=
  "Try visual examples and small analogies to ground abstract concepts.".
Definition practice_fragment : string :=
  "Practice-based learning will help — start with guided examples.".
Definition micro_fragment : string :=
  "You have limited time — micro-tasks (10–20 min) are best.".
Definition deep_fragment : string :=
  "You have long time blocks — structure them into deep-work sessions.".

Definition hard_levels : list string := ["very hard"; "hard"; "difficult"].
Definition medium_levels : list string := ["medium"; "okay"].
Definition low_moods : list string :=
  ["tired"; "stressed"; "low motivation"; "low"].

(** The list [parts] of [analyze_reason_local] just before it is joined. *)
Definition analyze_parts
    (subject difficulty reason_text mood : string) (time_available_min : Z)
    : list string :=
  let parts : list string := [] in
  let diff := strip (lower difficulty) in
  let mood_l := strip (lower mood) in
  let reason_l := strip (str_or reason_text "") in
  (* difficulty heuristics *)
  let parts :=
    if str_in diff hard_levels then append parts challenge_fragment
    else if str_in diff medium_levels then append parts manageable_fragment
    else append parts easy_fragment in
  (* mood heuristics *)
  let parts :=
    if str_in mood_l low_moods then append parts rest_fragment else parts in
  (* reason-specific hint *)
  let parts :=
    if truthy reason_l then
      let parts :=
        if contains "formul" reason_l || contains "formula" reason_l
        then append parts formula_fragment else parts in
      let parts :=
        if contains "concept" reason_l || contains "abstract" reason_l
        then append parts concept_fragment else parts in
      let parts :=
        if contains "practice" reason_l || contains "problems" reason_l
        then append parts practice_fragment else parts in
      parts
    else parts in
  (* time heuristics *)
  let parts :=
    if time_available_min <? 30 then append parts micro_fragment
    else if time_available_min >? 180 then append parts deep_fragment
    else parts in
  parts.

Definition analyze_reason_local
    (subject difficulty reason_text mood : string) (time_available_min : Z)
    : string :=
  join " " (analyze_parts subject difficulty reason_text mood time_available_min).

(** One entry of the weekly skeleton: the dict with keys ["day"], ["focus"]. *)
Record DayFocus : Type := mkDayFocus { day : string; focus : string }.

(** The dict returned by [build_plan_local]. *)
Record PlanResult : Type := mkPlan {
  motivational_message : string;
  today_tasks : list string;
  weekly_plan : list DayFocus
}.

Definition build_plan_local
    (subject difficulty reason_text mood : string) (time_available_min : Z)
    : PlanResult :=
  let diff := strip (lower difficulty) in
  let mood_l := strip (lower mood) in
  let subj := str_or (strip subject) "your topic" in
  (* motivational message *)
  let msg_parts : list string := [] in
  let msg_parts :=
    if str_in diff hard_levels
    then append msg_parts "Break goals into tiny steps — each small win builds momentum."
    else append msg_parts "Use focused blocks and active recall to keep progress steady." in
  let msg_parts :=
    if str_in mood_l low_moods
    then append msg_parts "Start with a 5-minute energizer (stretch/breath) then work in short bursts."
    else append msg_parts "Start strong with a short warm-up recap to prime your brain." in
  let msg_parts :=
    if time_available_min <? 30
    then append msg_parts "Micro-sessions: strict timers (15–20 min) work best right now."
    else if time_available_min <? 90
    then append msg_parts "Use 25/5 or 50/10 Pomodoro blocks depending on preference."
    else append msg_parts "Combine deep sessions with short breaks and a clear end-of-day review." in
  let motivational_message := join " " msg_parts in
  (* weekly skeleton (generic but descriptive) *)
  let weekly_plan := [
    mkDayFocus "Mon" "Core concept + 1 guided problem";
    mkDayFocus "Tue" "Flashcards & active recall";
    mkDayFocus "Wed" "Problem solving + explain out loud";
    mkDayFocus "Thu" "Timed practice + error review";
    mkDayFocus "Fri" "Mock/test-style practice";
    mkDayFocus "Sat" "Revise weak spots";
    mkDayFocus "Sun" "Rest + light overview"
  ] in
  (* Today tasks based on available time *)
  let t := time_available_min in
  let today_tasks :=
    if t <? 30 then [
      "Warm-up (5–10 min): quick recap of one key idea from " ++ subj ++ ".";
      "Micro-practice (10–15 min): solve one short problem or make 3 flashcards."
    ]
    else if t <? 90 then [
      "Warm-up (10 min): recap notes for " ++ subj ++ ".";
      "Focused session (30–40 min): deep work on one sub-topic with practice.";
      "Consolidation (10–15 min): write 5 recall questions and answers."
    ]
    else [
      "Warm-up & review (15 min): revisit yesterday's weak points in " ++ subj ++ ".";
      "Deep work (2 x 45–50 min): practice problems or concept mapping, with short break.";
      "Reflection (15 min): note mistakes and plan next day's focus."
    ] in
  {| motivational_message := motivational_message;
     today_tasks := today_tasks;
     weekly_plan := weekly_plan |}.

End Agent.

(** ** Exceptions *)

Module Py.

(** The exception classes the program can meet.  [OSError] covers the
    failures of [open], of reading and of writing; [ValueError] covers
    [json.JSONDecodeError] and [UnicodeDecodeError], its subclasses.  The last
    three derive from [BaseException] only. *)
Inductive exn : Type :=
  | OSError
  | ValueError
  | AttributeError
  | TypeError
  | OtherException (name : string)
  | KeyboardInterrupt
  | SystemExit
  | GeneratorExit.

(** [isinstance(e, Exception)] *)
Definition is_Exception (e : exn) : bool :=
  match e with
  | KeyboardInterrupt | SystemExit | GeneratorExit => false
  | _ => true
  end.

Inductive outcome (A : Type) : Type :=
  | Return (a : A)
  | Raise (e : exn).
Arguments Return {A} a.
Arguments Raise {A} e.

(** A computation over a store [S]: it returns or raises, and the store it
    leaves behind is kept in both cases. *)
Definition IO (S A : Type) : Type := S -> outcome A * S.

Definition ret {S A} (a : A) : IO S A := fun s => (Return a, s).
Definition raise {S A} (e : exn) : IO S A := fun s => (Raise e, s).

Definition bind {S A B} (m : IO S A) (k : A -> IO S B) : IO S B :=
  fun s =>
    match m s with
    | (Return a, s') => k a s'
    | (Raise e, s') => (Raise e, s')
    end.

(** [try: body except Exception: handler] *)
Definition try_except_Exception {S A} (body handler : IO S A) : IO S A :=
  fun s =>
    match body s with
    | (Return a, s') => (Return a, s')
    | (Raise e, s') => if is_Exception e then handler s' else (Raise e, s')
    end.

End Py.

Declare Scope io_scope.
Delimit Scope io_scope with io.
Notation "x <- m ;; k" := (Py.bind m (fun x => k))
  (at level 61, m at next level, right associativity) : io_scope.
Notation "m ;; k" := (Py.bind m (fun _ => k))
  (at level 61, right associativity) : io_scope.

(** ** The history store *)

Module History.
Import Py.

(** The values of the [json] module. *)
#[warnings="-register-all"]
Inductive json : Type :=
  | JNull
  | JBool (b : bool)
  | JInt (z : Z)
  | JStr (s : string)
  | JList (items : list json)
  | JDict (fields : list (string * json)).

(** The text in [DATA_FILE], up to what [json.load] makes of it: either it
    decodes to a value, or decoding raises (an empty or cut-off file, bytes
    that are no JSON).  [json.dump v] writes a text that decodes to [v]. *)
Inductive content : Type :=
  | Garbled
  | Doc (v : json).

(** The store: [None] when [DATA_FILE] does not exist. *)
Definition disk : Type := option content.

(** What the operating system does to the calls of one operation: whether
    [open(DATA_FILE, "r")] and the read succeed, whether
    [open(DATA_FILE, "w")] succeeds, and whether the write of [json.dump]
    (up to the close of the file) succeeds. *)
Record env : Type := mkEnv {
  can_read : bool;
  can_open_w : bool;
  can_dump : bool
}.

Open Scope io_scope.

(** [os.path.exists(DATA_FILE)] *)
Definition path_exists : IO disk bool :=
  fun d => (Return (match d with Some _ => true | None => false end), d).

(** [open(DATA_FILE, "r")] and the read of the whole file. *)
Definition open_read (e : env) : IO disk content :=
  fun d =>
    match d with
    | Some c => if can_read e then (Return c, d) else (Raise OSError, d)
    | None => (Raise OSError, d)
    end.

(** [json.load]: decoding of the text read. *)
Definition json_load (c : content) : IO disk json :=
  match c with
  | Doc v => ret v
  | Garbled => raise ValueError
  end.

(** [open(DATA_FILE, "w")]: creates the file, or truncates it to length 0. *)
Definition open_write (e : env) : IO disk unit :=
  fun d =>
    if can_open_w e then (Return tt, Some Garbled) else (Raise OSError, d).

(** [json.dump(v, f)] on the file just opened, and the close of the file. *)
Definition json_dump (e : env) (v : json) : IO disk unit :=
  fun d =>
    if can_dump e then (Return tt, Some (Doc v)) else (Raise OSError, Some Garbled).

(** [history.append(entry)]: only a list has the method. *)
Definition list_append (history entry : json) : IO disk json :=
  match history with
  | JList items => ret (JList (items ++ [entry]))
  | _ => raise AttributeError
  end.

Definition load_history (e : env) : IO disk json :=
  ex <- path_exists ;;
  if ex then
    try_except_Exception
      (f <- open_read e ;; json_load f)
      (ret (JList []))
  else ret (JList []).

Definition save_entry (e : env) (entry : json) : IO disk unit :=
  history <- load_history e ;;
  history <- list_append history entry ;;
  try_except_Exception
    (open_write e ;; json_dump e history)
    (ret tt).

Definition clear_history (e : env) : IO disk unit :=
  try_except_Exception
    (open_write e ;; json_dump e (JList []))
    (ret tt).

(** The record the form saves (the dict built before [save_entry]). *)
Definition make_entry (timestamp subject difficulty reason mood : string)
    (time_available : Z) (analysis : string) (tasks : list string) : json :=
  JDict [("timestamp", JStr timestamp); ("subject", JStr subject);
         ("difficulty", JStr difficulty); ("reason", JStr reason);
         ("mood", JStr mood); ("time_available", JInt time_available);
         ("analysis", JStr analysis); ("today_tasks", JList (map JStr tasks))].

End History.

(** ** The optional enrichment *)

Module Gemini.
Import PyStr Py.
Open Scope io_scope.

(** The module-level configuration read by [gemini_enrich]. *)
Record config : Type := mkConfig {
  GOOGLE_GENAI_AVAILABLE : bool;
  GEMINI_API_KEY : option string    (* [os.getenv]: [None] when unset *)
}.

(** Truthiness of [GEMINI_API_KEY]: [None] and the empty string are falsy. *)
Definition key_set (k : option string) : bool :=
  match k with Some s => truthy s | None => false end.

(** The value [GOOGLE_GENAI_AVAILABLE] gets when the module is loaded: the
    import must succeed and, when a key is set, [genai.configure] too. *)
Definition init_available (import_ok : bool) (key : option string)
    (configure_ok : bool) : bool :=
  if import_ok then
    if key_set key then (if configure_ok then true else false) else true
  else false.

(** What the client hands back: its [text] attribute, when it has one that
    is a string, and its [str()]. *)
Record Response : Type := mkResponse {
  text_attr : option string;
  as_str : string
}.

Definition newline : string := String (ascii_of_nat 10) EmptyString.

Section Enrich.

(** The state of the world the service call acts on, and the call
    [genai.generate_text(model=..., prompt=...)] itself. *)
Variable World : Type.
Variable generate_text : string -> string -> IO World Response.

Definition enrich_prompt (prompt_extra : string) : string :=
  "You are an encouraging study coach. Given the user context below, "
  ++ "write a 2-3 sentence motivational paragraph and list 3 practical tasks for today."
  ++ newline ++ newline
  ++ prompt_extra.

Definition gemini_enrich (cfg : config) (prompt_extra : string)
    : IO World (option string) :=
  if negb (GOOGLE_GENAI_AVAILABLE cfg) || negb (key_set (GEMINI_API_KEY cfg))
  then ret None
  else
    try_except_Exception
      (let prompt := enrich_prompt prompt_extra in
       resp <- generate_text "models/text-bison-001" prompt ;;
       let text :=
         match text_attr resp with
         | Some s => str_or s (as_str resp)
         | None => as_str resp
         end in
       ret (Some text))
      (ret None).

End Enrich.

End Gemini.

(** ** The quote of the day *)

Module Quotes.
Import Py.

Definition QUOTES : list string := [
  "Small consistent steps beat occasional giant leaps.";
  "Focus on progress, not perfection — one topic at a time.";
  "Short, consistent sessions compound into mastery.";
  "Break a task down: tiny wins build momentum.";
  "Energy first: hydrate, breathe, then start.";
  "Active practice > passive reading. Try it for 20 minutes.";
  "A clear plan beats vague intentions. Plan one small victory today."
].

(** [l[i]] on a Python list: a negative index counts from the end, and an
    index out of range raises [IndexError]. *)
Definition py_index {A : Type} (l : list A) (i : Z) : outcome A :=
  let n := Z.of_nat (length l) in
  let j := if i <? 0 then i + n else i in
  if (0 <=? j) && (j <? n) then
    match nth_error l (Z.to_nat j) with
    | Some x => Return x
    | None => Raise (OtherException "IndexError")
    end
  else Raise (OtherException "IndexError").

(** [get_daily_quote], on the value of [date.today().toordinal()].  Python's
    [%] is the floor modulo, as [Z.modulo] is; [len(QUOTES)] is not zero. *)
Definition get_daily_quote (today_ordinal : Z) : outcome string :=
  let idx := today_ordinal mod Z.of_nat (length QUOTES) in
  py_index QUOTES idx.

End Quotes.

(** ** The page: what a submitted form does *)

Module App.
Import PyStr Py Agent History Gemini.
Open Scope io_scope.

(** The calls of the Streamlit display functions, as the page makes them. *)
Inductive widget : Type :=
  | Markdown (body : string)
  | Write (body : string)
  | Info (body : string)
  | Success (body : string)
  | Table (rows : list DayFocus).

(** The values of the form. *)
Record form : Type := mkForm {
  subject : string;
  difficulty : string;
  reason_text : string;
  mood : string;
  time_available : Z;
  save_to_history : bool
}.

(** [str(n)] on an [int]. *)
Definition str_of_int (n : Z) : string := NilZero.string_of_int (Z.to_int n).

(** Truthiness of an [Optional[str]]. *)
Definition opt_truthy (o : option string) : bool :=
  match o with Some s => truthy s | None => false end.

Section Page.

Variable World : Type.
Variable generate_text : string -> string -> IO World Response.

(** What the run of the page acts on: the data file, the text service and
    the widgets shown so far. *)
Record state : Type := mkState {
  files : disk;
  service : World;
  screen : list widget
}.

Definition show (w : widget) : IO state unit :=
  fun st => (Return tt, mkState (files st) (service st) (screen st ++ [w])).

Definition on_files {A : Type} (m : IO disk A) : IO state A :=
  fun st =>
    let (r, d) := m (files st) in (r, mkState d (service st) (screen st)).

Definition on_service {A : Type} (m : IO World A) : IO state A :=
  fun st =>
    let (r, w) := m (service st) in (r, mkState (files st) w (screen st)).

(** [for i, t_task in enumerate(tasks, start=i): st.write(f"{i}. {t_task}")] *)
Fixpoint write_tasks (i : Z) (tasks : list string) : IO state unit :=
  match tasks with
  | [] => ret tt
  | t_task :: rest =>
      show (Write (str_of_int i ++ ". " ++ t_task)) ;;
      write_tasks (i + 1) rest
  end.

(** The statement [if submit: ... else: ...] of the output card.  [now] is
    [datetime.now().isoformat()], [e] what the operating system does to the
    file calls of [save_entry]. *)
Definition your_plan (cfg : config) (e : env) (now : string) (submit : bool)
    (f : form) : IO state unit :=
  if submit then
    (* Local analysis & plan *)
    let context_subject := str_or (strip (subject f)) "your topic" in
    let analysis :=
      analyze_reason_local context_subject (difficulty f) (reason_text f)
        (mood f) (time_available f) in
    let plan :=
      build_plan_local context_subject (difficulty f) (reason_text f)
        (mood f) (time_available f) in
    show (Markdown "**Why you might be struggling**") ;;
    show (Write analysis) ;;
    show (Markdown "**Motivational message**") ;;
    show (Info (motivational_message plan)) ;;
    show (Markdown "**Today's Tasks**") ;;
    write_tasks 1 (today_tasks plan) ;;
    show (Markdown "**Weekly Plan (skeleton)**") ;;
    show (Table (weekly_plan plan)) ;;
    (* Optional Gemini enrichment *)
    enriched_text <-
      (if GOOGLE_GENAI_AVAILABLE cfg && key_set (GEMINI_API_KEY cfg) then
         try_except_Exception
           (let prompt_extra :=
              "Subject: " ++ context_subject ++ newline
              ++ "Difficulty: " ++ difficulty f ++ newline
              ++ "Reason: " ++ reason_text f ++ newline
              ++ "Mood: " ++ mood f ++ newline
              ++ "Time available (min): " ++ str_of_int (time_available f) in
            on_service (gemini_enrich World generate_text cfg prompt_extra))
           (ret None)
       else ret None) ;;
    (if opt_truthy enriched_text then
       show (Markdown "**AI (optional) — enriched suggestion**") ;;
       show (Write (match enriched_text with Some s => s | None => "" end))
     else ret tt) ;;
    (* Save to history *)
    if save_to_history f then
      let entry :=
        make_entry now context_subject (difficulty f) (reason_text f) (mood f)
          (time_available f) analysis (today_tasks plan) in
      on_files (save_entry e entry) ;;
      show (Success "Saved plan to history.")
    else ret tt
  else
    show (Info "Enter your topic and press Generate Plan to get a short motivational plan.").

End Page.

Arguments mkState {World} files service screen.
Arguments files {World} s.
Arguments service {World} s.
Arguments screen {World} s.
Arguments show {World} w.
Arguments on_files {World A} m.
Arguments on_service {World A} m.
Arguments write_tasks {World} i tasks.
Arguments your_plan {World} generate_text cfg e now submit f.

End App.

(** ** Properties of the string operations *)

Module PyStrFacts.
Import PyStr.

(** No character of [k] is white space. *)
Fixpoint no_space (k : string) : bool :=
  match k with
  | EmptyString => true
  | String c k' => negb (is_space c) && no_space k'
  end.

Lemma prefix_cons a k c s :
  String.prefix (String a k) (String c s) = Ascii.eqb a c && String.prefix k s.
Proof.
  simpl. destruct (ascii_dec a c) as [->|n].
  - now rewrite Ascii.eqb_refl.
  - apply Ascii.eqb_neq in n. now rewrite n.
Qed.

Lemma prefix_empty_r k : String.prefix k "" = match k with "" => true | _ => false end.
Proof. now destruct k. Qed.

Lemma eqb_space_false a c :
  is_space a = false -> is_space c = true -> Ascii.eqb a c = false.
Proof.
  intros Ha Hc. apply Ascii.eqb_neq. intros ->. congruence.
Qed.

Lemma prefix_rstrip k : forall s,
  no_space k = true -> String.prefix k (rstrip s) = String.prefix k s.
Proof.
  induction k as [|a k IHk]; intros s Hk.
  - now destruct (rstrip s), s.
  - simpl in Hk. apply andb_true_iff in Hk as [Ha Hk].
    apply negb_true_iff in Ha.
    destruct s as [|c s]; [reflexivity|].
    rewrite prefix_cons, <- (IHk s Hk). simpl rstrip.
    destruct (rstrip s) as [|c' r] eqn:E.
    + destruct (is_space c) eqn:Hc.
      * now rewrite (eqb_space_false a c Ha Hc).
      * now rewrite prefix_cons.
    + now rewrite prefix_cons.
Qed.

Lemma contains_empty_r k : contains k "" = match k with "" => true | _ => false end.
Proof. destruct k; reflexivity. Qed.

Lemma contains_cons k c s :
  contains k (String c s) = String.prefix k (String c s) || contains k s.
Proof. reflexivity. Qed.

Lemma contains_rstrip k : forall s,
  no_space k = true -> truthy k = true -> contains k (rstrip s) = contains k s.
Proof.
  intros s Hk Hne. induction s as [|c s IH]; [reflexivity|].
  rewrite contains_cons, <- IH, <- (prefix_rstrip k (String c s) Hk).
  simpl rstrip. destruct (rstrip s) as [|c' r] eqn:E.
  - destruct (is_space c).
    + destruct k; [discriminate|reflexivity].
    + rewrite contains_cons. reflexivity.
  - rewrite contains_cons. reflexivity.
Qed.

Lemma contains_lstrip k : forall s,
  no_space k = true -> truthy k = true -> contains k (lstrip s) = contains k s.
Proof.
  intros s Hk Hne. induction s as [|c s IH]; [reflexivity|].
  simpl lstrip. destruct (is_space c) eqn:Hc; [|reflexivity].
  rewrite IH, contains_cons.
  destruct k as [|a k]; [discriminate|].
  simpl in Hk. apply andb_true_iff in Hk as [Ha _]. apply negb_true_iff in Ha.
  now rewrite prefix_cons, (eqb_space_false a c Ha Hc).
Qed.

(** Stripping does not change whether a blank-free keyword occurs. *)
Lemma contains_strip k s :
  no_space k = true -> truthy k = true -> contains k (strip s) = contains k s.
Proof.
  intros Hk Hne. unfold strip.
  now rewrite contains_rstrip, contains_lstrip.
Qed.

Lemma contains_falsy k s :
  truthy k = true -> truthy s = false -> contains k s = false.
Proof. destruct s; [|discriminate]. now destruct k. Qed.

Lemma str_or_empty s : str_or s "" = s.
Proof. now destruct s. Qed.


End PyStrFacts.

(** ** Properties of the plan generator *)

Module AgentFacts.
Import PyStr PyStrFacts Agent.

(** The four stages of [analyze_reason_local], each as the fragments it adds. *)
Definition difficulty_stage (difficulty : string) : string :=
  let diff := strip (lower difficulty) in
  if str_in diff hard_levels then challenge_fragment
  else if str_in diff medium_levels then manageable_fragment
  else easy_fragment.

Definition mood_stage (mood : string) : list string :=
  if str_in (strip (lower mood)) low_moods then [rest_fragment] else [].

Definition reason_stage (reason_text : string) : list string :=
  let reason_l := strip reason_text in
  (if contains "formul" reason_l || contains "formula" reason_l
   then [formula_fragment] else [])
  ++ (if contains "concept" reason_l || contains "abstract" reason_l
      then [concept_fragment] else [])
  ++ (if contains "practice" reason_l || contains "problems" reason_l
      then [practice_fragment] else []).

Definition time_stage (t : Z) : list string :=
  if t <? 30 then [micro_fragment]
  else if t >? 180 then [deep_fragment]
  else [].

Lemma reason_stage_falsy r : truthy (strip r) = false -> reason_stage r = [].
Proof.
  intros H. unfold reason_stage.
  rewrite !(contains_falsy _ (strip r)) by (assumption || reflexivity).
  reflexivity.
Qed.

Lemma analyze_parts_stages s d r m t :
  analyze_parts s d r m t
  = difficulty_stage d :: mood_stage m ++ reason_stage r ++ time_stage t.
Proof.
  unfold analyze_parts. rewrite str_or_empty.
  destruct (truthy (strip r)) eqn:Hr.
  - unfold difficulty_stage, mood_stage, reason_stage, time_stage, append.
    destruct (str_in (strip (lower d)) hard_levels),
             (str_in (strip (lower d)) medium_levels),
             (str_in (strip (lower m)) low_moods),
             (contains "formul" (strip r) || contains "formula" (strip r)),
             (contains "concept" (strip r) || contains "abstract" (strip r)),
             (contains "practice" (strip r) || contains "problems" (strip r)),
             (t <? 30), (t >? 180); reflexivity.
  - rewrite (reason_stage_falsy r Hr).
    unfold difficulty_stage, mood_stage, time_stage, append.
    destruct (str_in (strip (lower d)) hard_levels),
             (str_in (strip (lower d)) medium_levels),
             (str_in (strip (lower m)) low_moods),
             (t <? 30), (t >? 180); reflexivity.
Qed.

(** Membership of a fragment in each stage. *)
Ltac decide_in :=
  simpl; intuition (try discriminate; try congruence).

Lemma in_mood_stage f m : In f (mood_stage m) -> f = rest_fragment.
Proof.
  unfold mood_stage. destruct (str_in (strip (lower m)) low_moods); decide_in.
Qed.

Lemma in_time_stage f t :
  In f (time_stage t) -> f = micro_fragment \/ f = deep_fragment.
Proof. unfold time_stage. destruct (t <? 30), (t >? 180); decide_in. Qed.

Lemma in_reason_stage f r :
  In f (reason_stage r) ->
  f = formula_fragment \/ f = concept_fragment \/ f = practice_fragment.
Proof.
  unfold reason_stage.
  destruct (contains "formul" (strip r) || contains "formula" (strip r)),
           (contains "concept" (strip r) || contains "abstract" (strip r)),
           (contains "practice" (strip r) || contains "problems" (strip r));
    decide_in.
Qed.

Lemma in_difficulty_stage d :
  difficulty_stage d = challenge_fragment
  \/ difficulty_stage d = manageable_fragment
  \/ difficulty_stage d = easy_fragment.
Proof.
  unfold difficulty_stage.
  destruct (str_in (strip (lower d)) hard_levels),
           (str_in (strip (lower d)) medium_levels); auto.
Qed.

Ltac frag_neq :=
  unfold challenge_fragment, manageable_fragment, easy_fragment, rest_fragment,
    formula_fragment, concept_fragment, practice_fragment, micro_fragment,
    deep_fragment in *;
  discriminate.

Lemma in_analyze_parts f s d r m t :
  In f (analyze_parts s d r m t) <->
  f = difficulty_stage d \/ In f (mood_stage m) \/ In f (reason_stage r)
  \/ In f (time_stage t).
Proof.
  rewrite analyze_parts_stages. simpl. rewrite !in_app_iff.
  intuition congruence.
Qed.

(** Case analysis on the stage that put a fragment into [parts]; the cases
    that name a fragment of another stage are closed at once. *)
Ltac not_difficulty H :=
  match type of H with
  | _ = difficulty_stage ?d =>
      destruct (in_difficulty_stage d) as [E|[E|E]]; rewrite E in H; frag_neq
  end.
Ltac not_mood H := apply in_mood_stage in H; frag_neq.
Ltac not_reason H :=
  apply in_reason_stage in H; destruct H as [H|[H|H]]; frag_neq.
Ltac not_time H := apply in_time_stage in H; destruct H as [H|H]; frag_neq.
Ltac stage_cases H :=
  apply in_analyze_parts in H;
  destruct H as [H|[H|[H|H]]];
  [ try not_difficulty H | try not_mood H | try not_reason H | try not_time H ].

Lemma in_time_stage_micro t : In micro_fragment (time_stage t) <-> t < 30.
Proof.
  unfold time_stage.
  destruct (Z.ltb_spec t 30); [simpl; intuition|].
  destruct (t >? 180); simpl; split; try lia; intros [H'|[]]; frag_neq.
Qed.

Lemma in_time_stage_deep t : In deep_fragment (time_stage t) <-> t > 180.
Proof.
  unfold time_stage.
  destruct (Z.ltb_spec t 30).
  - simpl; split; try lia. intros [H'|[]]; frag_neq.
  - rewrite Z.gtb_ltb. destruct (Z.ltb_spec 180 t); simpl; split; try lia; intuition.
Qed.

Lemma in_reason_stage_formula r :
  In formula_fragment (reason_stage r)
  <-> contains "formul" r || contains "formula" r = true.
Proof.
  unfold reason_stage.
  rewrite !(contains_strip _ r) by reflexivity.
  destruct (contains "formul" r || contains "formula" r),
           (contains "concept" r || contains "abstract" r),
           (contains "practice" r || contains "problems" r);
    simpl; split; auto; intros H; try discriminate;
    repeat (destruct H as [H|H]; try frag_neq); try contradiction.
Qed.

Lemma in_reason_stage_concept r :
  In concept_fragment (reason_stage r)
  <-> contains "concept" r || contains "abstract" r = true.
Proof.
  unfold reason_stage.
  rewrite !(contains_strip _ r) by reflexivity.
  destruct (contains "formul" r || contains "formula" r),
           (contains "concept" r || contains "abstract" r),
           (contains "practice" r || contains "problems" r);
    simpl; split; auto; intros H; try discriminate;
    repeat (destruct H as [H|H]; try frag_neq); try contradiction.
Qed.

Lemma in_reason_stage_practice r :
  In practice_fragment (reason_stage r)
  <-> contains "practice" r || contains "problems" r = true.
Proof.
  unfold reason_stage.
  rewrite !(contains_strip _ r) by reflexivity.
  destruct (contains "formul" r || contains "formula" r),
           (contains "concept" r || contains "abstract" r),
           (contains "practice" r || contains "problems" r);
    simpl; split; auto; intros H; try discriminate;
    repeat (destruct H as [H|H]; try frag_neq); try contradiction.
Qed.

(** What the code does with the reason text: each keyword group is looked up
    in [reason_text] as typed, without case folding. *)
Lemma reason_fragments_as_typed s d r m t :
  (In formula_fragment (analyze_parts s d r m t)
   <-> contains "formul" r || contains "formula" r = true)
  /\ (In concept_fragment (analyze_parts s d r m t)
      <-> contains "concept" r || contains "abstract" r = true)
  /\ (In practice_fragment (analyze_parts s d r m t)
      <-> contains "practice" r || contains "problems" r = true).
Proof.
  repeat split; intros H.
  - stage_cases H. now apply in_reason_stage_formula.
  - apply in_analyze_parts. right; right; left. now apply in_reason_stage_formula.
  - stage_cases H. now apply in_reason_stage_concept.
  - apply in_analyze_parts. right; right; left. now apply in_reason_stage_concept.
  - stage_cases H. now apply in_reason_stage_practice.
  - apply in_analyze_parts. right; right; left. now apply in_reason_stage_practice.
Qed.

End AgentFacts.

(** ** Claims about [analyze_reason_local] *)

Module AnalyzeClaims.
Import PyStr PyStrFacts Agent AgentFacts.

(** The spec's example for the reason keywords holds as it is written there:
    the text is already lower case. *)
Example analyze_formulas_and_concepts :
  let parts := analyze_parts "Algebra" "Hard" "too many formulas and concepts"
                 "Focused" 60 in
  In formula_fragment parts /\ In concept_fragment parts
  /\ ~ In practice_fragment parts.
Proof.
  cbv zeta. repeat split.
  - apply reason_fragments_as_typed. reflexivity.
  - apply reason_fragments_as_typed. reflexivity.
  - intros H. apply reason_fragments_as_typed in H. discriminate H.
Qed.

(** C1 (code defect): [reason_l] is stripped but never lowercased, so the
    reason keywords are matched case-sensitively.  For the reason text
    ["Too many FORMULAS, CONCEPTS and PROBLEMS"] the lowercased text contains a
    keyword of each of the three groups, yet [analyze_reason_local] appends
    none of the three reason fragments. *)
Theorem C1_reason_keywords_not_case_folded :
  let r := "Too many FORMULAS, CONCEPTS and PROBLEMS" in
  contains "formul" (lower r) = true
  /\ contains "concept" (lower r) = true
  /\ contains "problems" (lower r) = true
  /\ analyze_parts "Algebra" "Hard" r "Focused" 60 = [challenge_fragment]
  /\ analyze_reason_local "Algebra" "Hard" r "Focused" 60 = challenge_fragment.
Proof. cbv zeta. repeat split; vm_compute; reflexivity. Qed.

(** The difficulty fragment as the spec words it, on the key the difficulty
    is matched by. *)
Definition spec_difficulty_fragment (key : string) : string :=
  if str_in key hard_levels then challenge_fragment
  else if str_in key medium_levels then manageable_fragment
  else easy_fragment.





(** The listed values are matched in any letter case, as the claim says. *)
Lemma difficulty_listed_values_any_case d :
  (str_in (lower d) hard_levels = true ->
     spec_difficulty_fragment (strip (lower d)) = challenge_fragment)
  /\ (str_in (lower d) medium_levels = true ->
     spec_difficulty_fragment (strip (lower d)) = manageable_fragment).
Proof.
  unfold str_in, hard_levels, medium_levels; simpl existsb.
  split; intros H;
    repeat (apply orb_true_iff in H; destruct H as [H|H]);
    try discriminate H;
    apply String.eqb_eq in H; rewrite H; reflexivity.
Qed.

(** C7: the time fragment.  The micro-task tip is in [parts] exactly when
    [time_available_min < 30], the deep-work tip exactly when
    [time_available_min > 180]; the fragment is appended at the end of what
    the other inputs give, and nothing is appended on [30, 180]. *)
Theorem C7_time_fragment s d r m t :
  (In micro_fragment (analyze_parts s d r m t) <-> t < 30)
  /\ (In deep_fragment (analyze_parts s d r m t) <-> t > 180)
  /\ analyze_parts s d r m t
     = (analyze_parts s d r m 30
        ++ (if t <? 30 then [micro_fragment]
            else if 180 <? t then [deep_fragment] else []))%list
  /\ (t < 30 \/ t > 180 \/ analyze_parts s d r m t = analyze_parts s d r m 30).
Proof.
  assert (A : analyze_parts s d r m t
     = (analyze_parts s d r m 30
        ++ (if t <? 30 then [micro_fragment]
            else if 180 <? t then [deep_fragment] else []))%list).
  { rewrite !analyze_parts_stages. unfold time_stage at 2.
    change (30 <? 30) with false. change (30 >? 180) with false.
    cbv iota. rewrite app_nil_r. simpl. rewrite <- !app_assoc.
    unfold time_stage. rewrite Z.gtb_ltb. reflexivity. }
  repeat split.
  - intros H. stage_cases H. now apply in_time_stage_micro.
  - intros H. apply in_analyze_parts. do 3 right. now apply in_time_stage_micro.
  - intros H. stage_cases H. now apply in_time_stage_deep.
  - intros H. apply in_analyze_parts. do 3 right. now apply in_time_stage_deep.
  - exact A.
  - destruct (Z.ltb_spec t 30); [now left|].
    destruct (Z.ltb_spec 180 t); [right; left; lia|].
    right; right. rewrite A.
    destruct (Z.ltb_spec t 30); [lia|].
    destruct (Z.ltb_spec 180 t); [lia|]. apply app_nil_r.
Qed.

(** C10: the analysis does not depend on [subject]. *)
Theorem C10_analyze_ignores_subject (s1 s2 d r m : string) (t : Z) :
  analyze_reason_local s1 d r m t = analyze_reason_local s2 d r m t.
Proof. reflexivity. Qed.

End AnalyzeClaims.

(** ** Claims about [build_plan_local] *)

Module PlanClaims.
Import PyStr PyStrFacts Agent.

(** The three time buckets, as the spec names them. *)
Inductive Bucket : Type := Under30 | From30To90 | AtLeast90.

Definition in_bucket (b : Bucket) (t : Z) : Prop :=
  match b with
  | Under30 => t < 30
  | From30To90 => 30 <= t < 90
  | AtLeast90 => t >= 90
  end.

Definition time_bucket (t : Z) : Bucket :=
  if t <? 30 then Under30 else if t <? 90 then From30To90 else AtLeast90.

Definition bucket_size (b : Bucket) : nat :=
  match b with Under30 => 2%nat | From30To90 => 3%nat | AtLeast90 => 3%nat end.

Lemma time_bucket_in t : in_bucket (time_bucket t) t.
Proof.
  unfold time_bucket.
  destruct (Z.ltb_spec t 30); [exact H|].
  destruct (Z.ltb_spec t 90); simpl; lia.
Qed.

Lemma in_bucket_unique b t : in_bucket b t -> b = time_bucket t.
Proof.
  unfold time_bucket.
  destruct (Z.ltb_spec t 30); [destruct b; simpl; intros; (reflexivity || lia)|].
  destruct (Z.ltb_spec t 90); destruct b; simpl; intros; (reflexivity || lia).
Qed.

(** The task list of each bucket, read off [build_plan_local] at a time of
    that bucket. *)
Definition tasks_of (b : Bucket) (subject : string) : list string :=
  today_tasks
    (build_plan_local subject "" "" ""
       match b with Under30 => 0 | From30To90 => 30 | AtLeast90 => 90 end).

Lemma today_tasks_bucket s d r m t :
  today_tasks (build_plan_local s d r m t) = tasks_of (time_bucket t) s.
Proof.
  unfold time_bucket, tasks_of, build_plan_local. cbv zeta.
  unfold today_tasks.
  destruct (t <? 30); [reflexivity|].
  destruct (t <? 90); reflexivity.
Qed.

Lemma tasks_of_length b s : length (tasks_of b s) = bucket_size b.
Proof. destruct b; reflexivity. Qed.

(** Task lists of two different buckets differ, whatever the subjects. *)
Lemma tasks_of_distinct b b' s s' : tasks_of b s = tasks_of b' s' -> b = b'.
Proof.
  destruct b, b'; intros H; try reflexivity; exfalso;
    unfold tasks_of, build_plan_local in H; simpl in H; discriminate H.
Qed.

(** C3: [today_tasks] is selected by the time bucket alone.  Every
    [time_available_min] lies in exactly one of the buckets [< 30],
    [30 <= . < 90], [>= 90]; the list has 2, 3 and 3 tasks there (so 2 at 15,
    3 at 60, 3 at 200); for one subject two inputs of the same bucket give the
    same list, and lists of different buckets differ, for any subjects. *)
Theorem C3_today_tasks_by_bucket s d r m t :
  (in_bucket (time_bucket t) t /\ forall b, in_bucket b t -> b = time_bucket t)
  /\ length (today_tasks (build_plan_local s d r m t))
     = bucket_size (time_bucket t)
  /\ (forall d' r' m' t',
        time_bucket t = time_bucket t' ->
        today_tasks (build_plan_local s d r m t)
        = today_tasks (build_plan_local s d' r' m' t'))
  /\ (forall s' d' r' m' t',
        today_tasks (build_plan_local s d r m t)
        = today_tasks (build_plan_local s' d' r' m' t') ->
        time_bucket t = time_bucket t')
  /\ length (today_tasks (build_plan_local s d r m 15)) = 2%nat
  /\ length (today_tasks (build_plan_local s d r m 60)) = 3%nat
  /\ length (today_tasks (build_plan_local s d r m 200)) = 3%nat.
Proof.
  split; [split; [apply time_bucket_in | intros b; apply in_bucket_unique]|].
  split; [rewrite today_tasks_bucket; apply tasks_of_length|].
  split.
  { intros d' r' m' t' E. rewrite !today_tasks_bucket. now rewrite E. }
  split.
  { intros s' d' r' m' t'. rewrite !today_tasks_bucket. apply tasks_of_distinct. }
  repeat split; rewrite today_tasks_bucket; apply tasks_of_length.
Qed.

(** The weekly skeleton. *)
Definition day_names : list string :=
  ["Mon"; "Tue"; "Wed"; "Thu"; "Fri"; "Sat"; "Sun"].

(** C8: [weekly_plan] is the same for all inputs: 7 (day, focus) pairs whose
    day names are Mon, Tue, Wed, Thu, Fri, Sat, Sun in that order. *)
Theorem C8_weekly_plan_constant s d r m t s' d' r' m' t' :
  weekly_plan (build_plan_local s d r m t)
  = weekly_plan (build_plan_local s' d' r' m' t')
  /\ length (weekly_plan (build_plan_local s d r m t)) = 7%nat
  /\ map day (weekly_plan (build_plan_local s d r m t)) = day_names.
Proof. repeat split. Qed.

End PlanClaims.

(** ** Claims about the history store *)

Module HistoryClaims.
Import Py History.

(** What [load_history] returns, by cases on the store and the read. *)
Definition loaded (e : env) (d : disk) : json :=
  match d with
  | Some (Doc v) => if can_read e then v else JList []
  | _ => JList []
  end.

Lemma load_history_run e d : load_history e d = (Return (loaded e d), d).
Proof.
  unfold load_history, bind, path_exists, try_except_Exception, open_read, loaded.
  destruct d as [[|v]|]; simpl; destruct (can_read e); reflexivity.
Qed.

Lemma load_history_list e d items :
  fst (load_history e d) = Return (JList items) -> loaded e d = JList items.
Proof. rewrite load_history_run. simpl. now intros [= ->]. Qed.

(** The write of [save_entry] and [clear_history], on its own. *)
Definition write_back (e : env) (v : json) : IO disk unit :=
  try_except_Exception (bind (open_write e) (fun _ => json_dump e v)) (ret tt).

Lemma write_back_run e v d :
  write_back e v d =
  (Return tt,
   if can_open_w e then (if can_dump e then Some (Doc v) else Some Garbled)
   else d).
Proof.
  unfold write_back, try_except_Exception, bind, open_write, json_dump, ret.
  destruct (can_open_w e), (can_dump e); reflexivity.
Qed.

Lemma save_entry_run e entry d items :
  loaded e d = JList items ->
  save_entry e entry d = write_back e (JList (items ++ [entry])) d.
Proof.
  intros H. unfold save_entry, bind at 1. rewrite load_history_run, H.
  reflexivity.
Qed.

(** When the file holds JSON that is not an array, [history.append] raises
    before any write is tried, and the file is left as it was. *)
Lemma save_entry_not_a_list e entry d :
  (forall items, loaded e d <> JList items) ->
  save_entry e entry d = (Raise AttributeError, d).
Proof.
  intros H. unfold save_entry, bind at 1. rewrite load_history_run.
  unfold bind, list_append.
  destruct (loaded e d) eqn:E; try reflexivity.
  now destruct (H items).
Qed.

(** C5: [load_history] returns on every store and under every behaviour of
    the operating system, and leaves the store as it is; when the file is
    missing, cannot be opened or read, or does not decode, it returns the
    empty list. *)
Theorem C5_load_history_never_raises (e : env) (d : disk) :
  exists v,
    load_history e d = (Return v, d)
    /\ (d = None \/ can_read e = false \/ d = Some Garbled -> v = JList []).
Proof.
  exists (loaded e d). split; [apply load_history_run|].
  unfold loaded. intros [->|[H| ->]]; try reflexivity.
  rewrite H. now destruct d as [[|v]|].
Qed.

(** The write fails: [open(DATA_FILE, "w")] raises, or it succeeds and
    [json.dump] raises. *)
Definition write_fails (e : env) : Prop :=
  can_open_w e = false \/ can_dump e = false.

Definition write_succeeds (e : env) : Prop :=
  can_open_w e = true /\ can_dump e = true.

Definition reads : env := mkEnv true true true.

Definition sample_entry : json :=
  make_entry "2024-05-01T10:00:00" "Algebra" "Hard" "too many formulas"
    "Focused" 60 "analysis" ["task"].

Definition new_entry : json :=
  make_entry "2024-05-02T09:30:00" "Optics" "Medium" "" "Tired" 20
    "analysis" ["warm-up"; "micro-practice"].

(** C2 as stated fails: the file holds one record, [open(DATA_FILE, "w")]
    succeeds and so truncates it, then the write of [json.dump] fails.
    [save_entry] returns without an error, but the record that was in the
    file is gone: [load_history] returned it before and returns [[]] after. *)
Lemma C2_counterexample_truncated_file :
  let d := Some (Doc (JList [sample_entry])) in
  let e := mkEnv true true false in
  write_fails e
  /\ fst (load_history reads d) = Return (JList [sample_entry])
  /\ save_entry e new_entry d = (Return tt, Some Garbled)
  /\ fst (load_history reads (snd (save_entry e new_entry d)))
     = Return (JList []).
Proof. cbv zeta. repeat split. right. reflexivity. Qed.

(** C2 (amended): when the write of [save_entry] fails, no error reaches the
    caller.  If [open(DATA_FILE, "w")] itself fails the file is unchanged; if
    the failure comes after the file was opened, the file has been truncated
    and does not decode any more, so that [load_history] then returns the
    empty list. *)
Theorem C2_failed_write_is_silent (e : env) (entry : json) (d : disk)
    (items : list json) :
  fst (load_history e d) = Return (JList items) ->
  write_fails e ->
  exists d',
    save_entry e entry d = (Return tt, d')
    /\ (can_open_w e = false -> d' = d)
    /\ (can_open_w e = true ->
        d' = Some Garbled
        /\ forall e', load_history e' d' = (Return (JList []), d')).
Proof.
  intros Hl Hf. apply load_history_list in Hl.
  rewrite (save_entry_run _ _ _ _ Hl), write_back_run.
  eexists. split; [reflexivity|]. split.
  - intros ->. reflexivity.
  - intros Ho. rewrite Ho. destruct Hf as [Hf|Hf]; [congruence|].
    rewrite Hf. split; [reflexivity|]. intros e'. apply load_history_run.
Qed.

Lemma C2_failed_write_witness :
  exists d',
    save_entry (mkEnv true false true) new_entry
      (Some (Doc (JList [sample_entry]))) = (Return tt, d')
    /\ d' = Some (Doc (JList [sample_entry])).
Proof.
  destruct (C2_failed_write_is_silent (mkEnv true false true) new_entry
              (Some (Doc (JList [sample_entry]))) [sample_entry]
              eq_refl (or_introl eq_refl)) as [d' [Hs [Hsame _]]].
  exists d'. split; [exact Hs | exact (Hsame eq_refl)].
Defined.

(** C4 as stated fails: the write succeeding is not enough.  The file holds
    two records but cannot be read (it is write-only); [save_entry] takes the
    history to be empty, its write succeeds, and the file then holds the new
    record alone.  A later [load_history] returns that record alone when it
    can read the file and the empty list when it cannot, never the two old
    records followed by the new one. *)
Lemma C4_counterexample_unreadable_file :
  let d := Some (Doc (JList [sample_entry; sample_entry])) in
  let e := mkEnv false true true in
  write_succeeds e
  /\ fst (load_history reads d) = Return (JList [sample_entry; sample_entry])
  /\ save_entry e new_entry d = (Return tt, Some (Doc (JList [new_entry])))
  /\ fst (load_history reads (snd (save_entry e new_entry d)))
     = Return (JList [new_entry])
  /\ fst (load_history e (snd (save_entry e new_entry d)))
     = Return (JList []).
Proof. cbv zeta. repeat split. Qed.

(** C4 (amended): the round trip.  When the write succeeds: if the read of
    [save_entry] succeeds and gives a list, [save_entry r] makes a later
    [load_history] whose read succeeds return that list, the stored one, with
    [r] added at the end; if the read of [save_entry] fails, the file then
    holds [r] alone; and [clear_history] makes a later [load_history] return
    the empty list. *)
Theorem C4_history_round_trip (e : env) (r : json) (d : disk)
    (items : list json) :
  write_succeeds e ->
  (can_read e = true ->
   fst (load_history e d) = Return (JList items) ->
   exists d',
     save_entry e r d = (Return tt, d')
     /\ forall e', can_read e' = true ->
          load_history e' d' = (Return (JList (items ++ [r])), d'))
  /\ (can_read e = false ->
      save_entry e r d = (Return tt, Some (Doc (JList [r]))))
  /\ (exists d',
        clear_history e d = (Return tt, d')
        /\ forall e', load_history e' d' = (Return (JList []), d')).
Proof.
  intros [Ho Hd]. split; [|split].
  - intros _ Hl. apply load_history_list in Hl.
    rewrite (save_entry_run _ _ _ _ Hl), write_back_run, Ho, Hd.
    eexists. split; [reflexivity|].
    intros e' Hr. rewrite load_history_run. simpl. now rewrite Hr.
  - intros Hr.
    assert (L : loaded e d = JList []).
    { unfold loaded. rewrite Hr. now destruct d as [[|v]|]. }
    rewrite (save_entry_run _ _ _ _ L), write_back_run, Ho, Hd. reflexivity.
  - change (clear_history e d) with (write_back e (JList []) d).
    rewrite write_back_run, Ho, Hd.
    eexists. split; [reflexivity|].
    intros e'. rewrite load_history_run. simpl. now destruct (can_read e').
Qed.

Lemma C4_round_trip_witness :
  fst (load_history reads
         (snd (save_entry reads new_entry (Some (Doc (JList [sample_entry]))))))
  = Return (JList [sample_entry; new_entry]).
Proof.
  destruct (C4_history_round_trip reads new_entry
              (Some (Doc (JList [sample_entry]))) [sample_entry]
              (conj eq_refl eq_refl)) as [A _].
  destruct (A eq_refl eq_refl) as [d' [Hs Hl]].
  rewrite Hs. simpl snd. rewrite (Hl reads eq_refl). reflexivity.
Defined.

End HistoryClaims.

(** ** Claims about the enrichment *)

Module GeminiClaims.
Import PyStr Py Gemini.

Section Enrich.

Variable World : Type.
Variable generate_text : string -> string -> IO World Response.

(** No credential or no client. *)
Definition unconfigured (cfg : config) : Prop :=
  GOOGLE_GENAI_AVAILABLE cfg = false \/ key_set (GEMINI_API_KEY cfg) = false.

(** C9: without a configured client or credential [gemini_enrich] returns
    [None], does not raise and does not call the service; and whenever the
    service call raises an error (an exception deriving from [Exception]),
    [gemini_enrich] returns [None] as well.  No error ever reaches the
    caller. *)
Theorem C9_gemini_enrich_absent (cfg : config) (prompt_extra : string)
    (w : World) :
  (unconfigured cfg ->
     gemini_enrich World generate_text cfg prompt_extra w = (Return None, w))
  /\ (forall e w',
        generate_text "models/text-bison-001" (enrich_prompt prompt_extra) w
          = (Raise e, w') ->
        is_Exception e = true ->
        fst (gemini_enrich World generate_text cfg prompt_extra w) = Return None)
  /\ (forall e,
        fst (gemini_enrich World generate_text cfg prompt_extra w) = Raise e ->
        is_Exception e = false).
Proof.
  unfold gemini_enrich, unconfigured, try_except_Exception, bind, ret.
  repeat split.
  - intros [H|H]; rewrite H; [reflexivity|]. now rewrite orb_true_r.
  - intros e w' Hc He.
    destruct (negb _ || negb _); [reflexivity|].
    rewrite Hc, He. reflexivity.
  - intros e.
    destruct (negb _ || negb _); [discriminate|].
    destruct (generate_text _ _ w) as [[resp|e'] w'] eqn:Hc; [discriminate|].
    destruct (is_Exception e') eqn:He; [discriminate|].
    simpl. intros [= <-]. exact He.
Qed.

End Enrich.

(** A service that always fails with a network error, and a key that is set:
    the error is swallowed. *)
Example enrich_swallows_an_error :
  gemini_enrich unit (fun _ _ w => (Raise OSError, w))
    (mkConfig true (Some "key")) "Subject: Algebra" tt
  = (Return None, tt).
Proof. reflexivity. Qed.

(** A service that answers: the text of the answer is returned. *)
Example enrich_returns_the_text :
  gemini_enrich unit (fun _ _ w => (Return (mkResponse (Some "Go!") "resp"), w))
    (mkConfig true (Some "key")) "Subject: Algebra" tt
  = (Return (Some "Go!"), tt).
Proof. reflexivity. Qed.

End GeminiClaims.

(** ** Further properties of the string operations *)

Module PyStrNormal.
Import PyStr PyStrFacts.

Lemma lower_char_idem c : lower_char (lower_char c) = lower_char c.
Proof. destruct c as [[] [] [] [] [] [] [] []]; reflexivity. Qed.

Lemma is_space_lower_char c : is_space (lower_char c) = is_space c.
Proof. destruct c as [[] [] [] [] [] [] [] []]; reflexivity. Qed.

Lemma lower_idem s : lower (lower s) = lower s.
Proof. induction s as [|c s IH]; simpl; [|rewrite lower_char_idem, IH]; reflexivity. Qed.

Lemma lower_lstrip s : lower (lstrip s) = lstrip (lower s).
Proof.
  induction s as [|c s IH]; [reflexivity|].
  simpl. rewrite is_space_lower_char. destruct (is_space c); [exact IH|reflexivity].
Qed.

Lemma lower_rstrip s : lower (rstrip s) = rstrip (lower s).
Proof.
  induction s as [|c s IH]; [reflexivity|].
  simpl. rewrite <- IH, is_space_lower_char.
  destruct (rstrip s) as [|c' r]; simpl; [destruct (is_space c)|]; reflexivity.
Qed.

(** Case folding and stripping commute. *)
Lemma lower_strip s : lower (strip s) = strip (lower s).
Proof. unfold strip. now rewrite lower_rstrip, lower_lstrip. Qed.

(** The string is empty or starts with a character that is no white space. *)
Definition starts_clean (s : string) : bool :=
  match s with
  | EmptyString => true
  | String c _ => negb (is_space c)
  end.

Lemma lstrip_starts_clean s : starts_clean (lstrip s) = true.
Proof.
  induction s as [|c s IH]; [reflexivity|].
  simpl. destruct (is_space c) eqn:E; [exact IH|]. simpl. now rewrite E.
Qed.

Lemma lstrip_clean s : starts_clean s = true -> lstrip s = s.
Proof.
  destruct s as [|c s]; [reflexivity|]. simpl. now destruct (is_space c).
Qed.

Lemma rstrip_starts_clean s : starts_clean s = true -> starts_clean (rstrip s) = true.
Proof.
  destruct s as [|c s]; [reflexivity|]. simpl. intros H.
  apply negb_true_iff in H.
  destruct (rstrip s); rewrite ?H; simpl; now rewrite H.
Qed.

Lemma rstrip_idem s : rstrip (rstrip s) = rstrip s.
Proof.
  induction s as [|c s IH]; [reflexivity|].
  simpl. destruct (rstrip s) as [|c' r] eqn:E.
  - destruct (is_space c) eqn:Hc; [reflexivity|]. simpl. now rewrite Hc.
  - change (rstrip (String c (String c' r)))
      with (match rstrip (String c' r) with
            | EmptyString => if is_space c then EmptyString else String c EmptyString
            | r0 => String c r0
            end).
    now rewrite IH.
Qed.

Lemma strip_idem s : strip (strip s) = strip s.
Proof.
  unfold strip.
  rewrite (lstrip_clean (rstrip (lstrip s))).
  - apply rstrip_idem.
  - apply rstrip_starts_clean, lstrip_starts_clean.
Qed.

(** The key a difficulty or a mood is matched by is a fixed point. *)
Lemma key_idem s : strip (lower (strip (lower s))) = strip (lower s).
Proof. now rewrite lower_strip, lower_idem, strip_idem. Qed.

Lemma prefix_refl s : String.prefix s s = true.
Proof.
  induction s as [|c s IH]; [reflexivity|]. now rewrite prefix_cons, Ascii.eqb_refl.
Qed.

Lemma prefix_app f : forall a b, String.prefix f a = true -> String.prefix f (a ++ b) = true.
Proof.
  induction f as [|c f IH]; intros a b H; [now destruct (a ++ b)|].
  destruct a as [|c' a]; [discriminate H|].
  change (String c' a ++ b) with (String c' (a ++ b)).
  rewrite prefix_cons in *. apply andb_true_iff in H as [H1 H2].
  now rewrite H1, (IH a b H2).
Qed.

Lemma contains_app_l f a b : contains f a = true -> contains f (a ++ b) = true.
Proof.
  induction a as [|c a IH]; intros H.
  - destruct f; [now destruct b|discriminate H].
  - change (String c a ++ b) with (String c (a ++ b)).
    rewrite contains_cons in *. apply orb_true_iff in H as [H|H].
    + pose proof (prefix_app _ _ b H) as P.
      change (String c a ++ b) with (String c (a ++ b)) in P. now rewrite P.
    + rewrite (IH H). apply orb_true_r.
Qed.

Lemma contains_app_r f a b : contains f b = true -> contains f (a ++ b) = true.
Proof.
  intros H. induction a as [|c a IH]; [exact H|].
  change (String c a ++ b) with (String c (a ++ b)).
  rewrite contains_cons, IH. apply orb_true_r.
Qed.

Lemma contains_refl f : contains f f = true.
Proof. destruct f; [reflexivity|]. rewrite contains_cons, prefix_refl. reflexivity. Qed.

(** Every element of a joined list occurs in the joined text. *)
Lemma contains_join sep f l : In f l -> contains f (join sep l) = true.
Proof.
  induction l as [|x l IH]; [intros []|].
  intros [->|H].
  - destruct l; [apply contains_refl|].
    change (contains f (f ++ sep ++ join sep (s :: l)) = true).
    apply contains_app_l, contains_refl.
  - destruct l as [|y l]; [destruct H|].
    change (contains f (x ++ sep ++ join sep (y :: l)) = true).
    apply contains_app_r, contains_app_r, IH, H.
Qed.

End PyStrNormal.

(** ** Further properties of [analyze_reason_local] *)

Module AnalyzeExtras.
Import PyStr PyStrFacts PyStrNormal Agent AgentFacts.

(** The nine fragments, in the order in which the code can append them. *)
Definition all_fragments : list string :=
  [challenge_fragment; manageable_fragment; easy_fragment; rest_fragment;
   formula_fragment; concept_fragment; practice_fragment;
   micro_fragment; deep_fragment].

(** [f in parts] *)
Definition in_parts (f : string) (parts : list string) : bool :=
  existsb (String.eqb f) parts.

Lemma in_parts_In f parts : in_parts f parts = true <-> In f parts.
Proof.
  unfold in_parts. rewrite existsb_exists. split.
  - intros [x [Hx E]]. apply String.eqb_eq in E. now subst.
  - intros H. exists f. split; [exact H|apply String.eqb_refl].
Qed.

(** All the lists [parts] can be: case analysis on the eight tests of
    [analyze_reason_local]. *)
Ltac all_parts s d r m t :=
  rewrite ?(analyze_parts_stages s d r m t);
  unfold difficulty_stage, mood_stage, reason_stage, time_stage;
  destruct (str_in (strip (lower d)) hard_levels),
           (str_in (strip (lower d)) medium_levels),
           (str_in (strip (lower m)) low_moods),
           (contains "formul" (strip r) || contains "formula" (strip r)),
           (contains "concept" (strip r) || contains "abstract" (strip r)),
           (contains "practice" (strip r) || contains "problems" (strip r)),
           (t <? 30), (t >? 180).

(** X1: the fragments keep the order of the code.  [parts] is the list of the
    nine fragments in their fixed order, cut down to those that were appended:
    no fragment is repeated or moved, and there are between one and six. *)
Theorem analyze_parts_ordered s d r m t :
  analyze_parts s d r m t
  = filter (fun f => in_parts f (analyze_parts s d r m t)) all_fragments
  /\ NoDup (analyze_parts s d r m t)
  /\ (1 <= length (analyze_parts s d r m t) <= 6)%nat.
Proof.
  assert (N : NoDup all_fragments).
  { unfold all_fragments.
    repeat (constructor; [simpl; intros H;
      repeat (destruct H as [H|H]; [frag_neq|]); exact H|]).
    constructor. }
  assert (E : analyze_parts s d r m t
    = filter (fun f => in_parts f (analyze_parts s d r m t)) all_fragments).
  { all_parts s d r m t; vm_compute; reflexivity. }
  split; [exact E|]. split.
  - rewrite E. apply NoDup_filter, N.
  - all_parts s d r m t; simpl; lia.
Qed.

(** For each of the nine fragments, whether the analysis text contains it
    and whether it is in [parts], on all the lists [parts] can be. *)
Lemma text_contains_table s d r m t :
  Forall (fun f =>
            contains f (analyze_reason_local s d r m t)
            = in_parts f (analyze_parts s d r m t))
         all_fragments.
Proof.
  unfold analyze_reason_local.
  all_parts s d r m t; repeat constructor; vm_compute; reflexivity.
Qed.

(** X2: the text shows exactly what was appended.  For each of the nine
    fragments, the analysis text contains it if and only if it is in
    [parts]: joining the fragments neither hides one nor makes another
    appear. *)
Theorem analysis_text_contains_exactly f s d r m t :
  In f all_fragments ->
  (contains f (analyze_reason_local s d r m t) = true
   <-> In f (analyze_parts s d r m t)).
Proof.
  intros H. rewrite <- in_parts_In.
  pose proof (text_contains_table s d r m t) as F.
  rewrite Forall_forall in F. now rewrite (F f H).
Qed.

Lemma analysis_text_contains_exactly_witness :
  contains rest_fragment
    (analyze_reason_local "Algebra" "Hard" "" "Focused" 200) = true
  <-> In rest_fragment (analyze_parts "Algebra" "Hard" "" "Focused" 200).
Proof.
  apply analysis_text_contains_exactly. simpl. tauto.
Defined.

Lemma text_contains_eq f s d r m t (b : bool) :
  In f all_fragments ->
  (In f (analyze_parts s d r m t) <-> b = true) ->
  contains f (analyze_reason_local s d r m t) = b.
Proof.
  intros H A.
  pose proof (text_contains_table s d r m t) as F.
  rewrite Forall_forall in F. rewrite (F f H).
  apply Bool.eq_iff_eq_true. now rewrite in_parts_In.
Qed.

(** The key a mood or a difficulty is matched by. *)
Definition key (s : string) : string := strip (lower s).

(** X3: the mood fragment.  For a mood of ASCII characters the rest
    suggestion is appended, and shows in the analysis text, exactly when the
    lowercased and stripped mood is one of "tired", "stressed",
    "low motivation", "low". *)
Theorem rest_fragment_iff_low_mood s d r m t :
  is_ascii m = true ->
  (In rest_fragment (analyze_parts s d r m t)
   <-> str_in (key m) low_moods = true)
  /\ contains rest_fragment (analyze_reason_local s d r m t)
     = str_in (key m) low_moods.
Proof.
  intros _.
  assert (A : In rest_fragment (analyze_parts s d r m t)
              <-> str_in (key m) low_moods = true).
  { unfold key. split; intros H.
    - stage_cases H. unfold mood_stage in H.
      destruct (str_in (strip (lower m)) low_moods); [reflexivity|destruct H].
    - apply in_analyze_parts. right; left. unfold mood_stage. rewrite H.
      now left. }
  split; [exact A|].
  apply text_contains_eq; [simpl; tauto|exact A].
Qed.

Lemma rest_fragment_iff_low_mood_witness :
  contains rest_fragment
    (analyze_reason_local "Algebra" "Hard" "" " Low Motivation " 60) = true.
Proof.
  destruct (rest_fragment_iff_low_mood "Algebra" "Hard" "" " Low Motivation "
              60 eq_refl) as [_ H].
  rewrite H. reflexivity.
Defined.

(** X4: only the keys matter.  Two difficulties with the same lowercased and
    stripped form, two moods with the same such form and two reason texts
    with the same stripped form give the same analysis, at any subjects. *)
Theorem analyze_depends_on_keys s s' d d' r r' m m' t :
  key d = key d' ->
  key m = key m' ->
  strip r = strip r' ->
  analyze_reason_local s d r m t = analyze_reason_local s' d' r' m' t.
Proof.
  unfold key, analyze_reason_local. intros Hd Hm Hr.
  rewrite !analyze_parts_stages.
  unfold difficulty_stage, mood_stage, reason_stage.
  now rewrite Hd, Hm, Hr.
Qed.

Lemma analyze_depends_on_keys_witness :
  analyze_reason_local "Algebra" "  VERY hard " " practice problems  " "Tired" 20
  = analyze_reason_local "x" "very hard" "practice problems" " tIrEd" 20.
Proof.
  apply analyze_depends_on_keys; reflexivity.
Defined.

(** X5: the time fragment in the text.  The analysis text contains the
    micro-task tip exactly when [time_available_min < 30] and the deep-work
    tip exactly when [time_available_min > 180]; both never occur together. *)
Theorem time_fragment_in_text s d r m t :
  contains micro_fragment (analyze_reason_local s d r m t) = (t <? 30)
  /\ contains deep_fragment (analyze_reason_local s d r m t) = (180 <? t)
  /\ (contains micro_fragment (analyze_reason_local s d r m t)
      && contains deep_fragment (analyze_reason_local s d r m t) = false).
Proof.
  assert (M : contains micro_fragment (analyze_reason_local s d r m t) = (t <? 30)).
  { apply text_contains_eq; [simpl; tauto|].
    rewrite Z.ltb_lt. split; intros H.
    - stage_cases H. now apply in_time_stage_micro.
    - apply in_analyze_parts. do 3 right. now apply in_time_stage_micro. }
  assert (D : contains deep_fragment (analyze_reason_local s d r m t) = (180 <? t)).
  { apply text_contains_eq; [simpl; tauto|].
    rewrite Z.ltb_lt. split; intros H.
    - stage_cases H. apply in_time_stage_deep in H. lia.
    - apply in_analyze_parts. do 3 right. apply in_time_stage_deep. lia. }
  split; [exact M|]. split; [exact D|].
  rewrite M, D.
  destruct (Z.ltb_spec t 30), (Z.ltb_spec 180 t); try reflexivity. lia.
Qed.

(** X6: the reason keywords in the text.  The analysis text contains the
    formula tip exactly when the reason text, as typed, contains "formul" (or
    "formula"), the visualisation tip exactly when it contains "concept" or
    "abstract", the guided-practice tip exactly when it contains "practice"
    or "problems"; white space around the reason text plays no part. *)
Theorem reason_fragments_in_text s d r m t :
  contains formula_fragment (analyze_reason_local s d r m t)
  = contains "formul" r || contains "formula" r
  /\ contains concept_fragment (analyze_reason_local s d r m t)
     = contains "concept" r || contains "abstract" r
  /\ contains practice_fragment (analyze_reason_local s d r m t)
     = contains "practice" r || contains "problems" r.
Proof.
  repeat split; (apply text_contains_eq; [simpl; tauto|]);
    apply reason_fragments_as_typed.
Qed.

End AnalyzeExtras.

(** ** Further properties of [build_plan_local] *)

Module PlanExtras.
Import PyStr PyStrFacts PyStrNormal Agent PlanClaims.

(** The subject as the tasks name it. *)
Definition normal_subject (subject : string) : string :=
  str_or (strip subject) "your topic".

Lemma normal_subject_idem s : normal_subject (normal_subject s) = normal_subject s.
Proof.
  unfold normal_subject, str_or.
  destruct (truthy (strip s)) eqn:E.
  - now rewrite strip_idem, E.
  - reflexivity.
Qed.

Lemma normal_subject_truthy s : truthy (normal_subject s) = true.
Proof.
  unfold normal_subject, str_or. now destruct (truthy (strip s)) eqn:E.
Qed.

(** The three tests the motivational message is chosen by. *)
Definition is_hard (difficulty : string) : bool :=
  str_in (strip (lower difficulty)) hard_levels.
Definition is_low (mood : string) : bool :=
  str_in (strip (lower mood)) low_moods.

(** X7: the motivational message is picked by three tests and by nothing else:
    whether the difficulty key is a hard level, whether the mood key is a low
    mood, and the time bucket.  Two inputs with difficulties and moods of
    ASCII characters get the same message exactly when they agree on the
    three; subject and reason text play no part, and a medium difficulty gets
    the message of an easy one. *)
Theorem motivational_message_classes s d r m t s' d' r' m' t' :
  is_ascii d = true -> is_ascii d' = true ->
  is_ascii m = true -> is_ascii m' = true ->
  (motivational_message (build_plan_local s d r m t)
   = motivational_message (build_plan_local s' d' r' m' t')
   <-> is_hard d = is_hard d' /\ is_low m = is_low m'
       /\ time_bucket t = time_bucket t').
Proof.
  intros _ _ _ _.
  unfold build_plan_local, is_hard, is_low, time_bucket, motivational_message.
  cbv zeta.
  destruct (str_in (strip (lower d)) hard_levels),
           (str_in (strip (lower d')) hard_levels),
           (str_in (strip (lower m)) low_moods),
           (str_in (strip (lower m')) low_moods),
           (t <? 30), (t <? 90), (t' <? 30), (t' <? 90);
    simpl; split;
    solve [ intros H; discriminate H
          | intros [H1 [H2 H3]]; discriminate
          | intros; repeat split; reflexivity ].
Qed.

Lemma motivational_message_classes_witness :
  motivational_message
    (build_plan_local "Algebra" "Medium" "formulas" " TIRED" 45)
  = motivational_message
      (build_plan_local "" "easy" "" "stressed" 89).
Proof.
  apply (motivational_message_classes "Algebra" "Medium" "formulas" " TIRED"
           45 "" "easy" "" "stressed" 89 eq_refl eq_refl eq_refl eq_refl).
  repeat split.
Defined.

(** X8: the plan sees its inputs only through their normal forms.  The whole
    result is unchanged when the subject is replaced by its stripped form
    (or by "your topic" when that is empty), the difficulty and the mood by
    their lowercased and stripped forms, and the reason text by any other. *)
Theorem build_plan_normal_forms s d r m t r' :
  build_plan_local s d r m t
  = build_plan_local (normal_subject s) (strip (lower d)) r'
      (strip (lower m)) t.
Proof.
  unfold build_plan_local. cbv zeta.
  rewrite !key_idem.
  change (str_or (strip (normal_subject s)) "your topic")
    with (normal_subject (normal_subject s)).
  rewrite normal_subject_idem. reflexivity.
Qed.

(** X9: the subject in the tasks.  The list of tasks is never empty, and its
    tasks after the first are the same for every subject.  For a subject of
    ASCII characters the first task names the normalised subject, which is
    never empty: a blank subject is named "your topic". *)
Theorem today_tasks_name_the_subject s d r m t :
  exists first rest,
    today_tasks (build_plan_local s d r m t) = first :: rest
    /\ (forall s', tl (today_tasks (build_plan_local s' d r m t)) = rest)
    /\ (is_ascii s = true ->
        contains (normal_subject s) first = true
        /\ truthy (normal_subject s) = true
        /\ (truthy (strip s) = false -> normal_subject s = "your topic")).
Proof.
  unfold build_plan_local. cbv zeta. unfold today_tasks.
  fold (normal_subject s).
  destruct (t <? 30); [|destruct (t <? 90)];
    eexists; eexists; (split; [reflexivity|]);
    (split; [intros s'; reflexivity|]); intros _;
    (split; [apply contains_app_r, contains_app_l, contains_refl|]);
    (split; [apply normal_subject_truthy|]);
    intros H; unfold normal_subject, str_or; now rewrite H.
Qed.

Lemma today_tasks_name_the_subject_witness :
  exists first rest,
    today_tasks (build_plan_local "   " "Hard" "" "Focused" 60) = first :: rest
    /\ contains "your topic" first = true.
Proof.
  destruct (today_tasks_name_the_subject "   " "Hard" "" "Focused" 60)
    as [first [rest [E [_ K]]]].
  destruct (K eq_refl) as [C [_ N]].
  exists first, rest. split; [exact E|].
  rewrite <- (N eq_refl). exact C.
Defined.

End PlanExtras.

(** ** Further properties of the history store *)

Module HistoryExtras.
Import Py History HistoryClaims.
Open Scope io_scope.

(** X10: a history file that is valid JSON but no array.  When the file can
    be read and decodes to a value other than a list, [load_history] returns
    that value as it is, and [save_entry] raises [AttributeError] at
    [history.append], before any write: the file stays as it was, whatever
    the write would have done. *)
Theorem save_entry_on_a_non_list (e : env) (entry v : json) :
  can_read e = true ->
  (forall items, v <> JList items) ->
  load_history e (Some (Doc v)) = (Return v, Some (Doc v))
  /\ save_entry e entry (Some (Doc v)) = (Raise AttributeError, Some (Doc v)).
Proof.
  intros Hr Hv.
  assert (L : loaded e (Some (Doc v)) = v) by (simpl; now rewrite Hr).
  split.
  - rewrite load_history_run. now rewrite L.
  - apply save_entry_not_a_list. now rewrite L.
Qed.

Lemma save_entry_on_a_non_list_witness :
  save_entry reads new_entry (Some (Doc (JDict [("a", JInt 1)])))
  = (Raise AttributeError, Some (Doc (JDict [("a", JInt 1)]))).
Proof.
  apply (save_entry_on_a_non_list reads new_entry (JDict [("a", JInt 1)])).
  - reflexivity.
  - intros items H. discriminate H.
Defined.

(** X11: what [save_entry] can do.  It returns normally or raises
    [AttributeError], nothing else; when it raises, the file is unchanged;
    when it returns, the file is unchanged (the open failed), or holds a text
    that does not decode (the write failed), or holds a list that ends with
    the entry. *)
Theorem save_entry_outcomes (e : env) (entry : json) (d : disk) :
  save_entry e entry d = (Raise AttributeError, d)
  \/ exists d',
       save_entry e entry d = (Return tt, d')
       /\ (d' = d \/ d' = Some Garbled
           \/ exists items, d' = Some (Doc (JList (items ++ [entry])))).
Proof.
  destruct (loaded e d) as [| | | |items|] eqn:L;
    try (left; apply save_entry_not_a_list; intros items H; congruence).
  right. rewrite (save_entry_run _ _ _ _ L), write_back_run.
  eexists. split; [reflexivity|].
  destruct (can_open_w e); [|now left].
  destruct (can_dump e); [|now right; left].
  right; right. now exists items.
Qed.

(** X12: [clear_history] never raises.  If [open(DATA_FILE, "w")] succeeds,
    a later [load_history] returns the empty list, even when the write of
    the empty list then fails; if the open fails, the file is unchanged and
    the records stay. *)
Theorem clear_history_outcomes (e : env) (d : disk) :
  exists d',
    clear_history e d = (Return tt, d')
    /\ (can_open_w e = true ->
        forall e', load_history e' d' = (Return (JList []), d'))
    /\ (can_open_w e = false -> d' = d).
Proof.
  change (clear_history e d) with (write_back e (JList []) d).
  rewrite write_back_run. eexists. split; [reflexivity|]. split.
  - intros ->. intros e'. rewrite load_history_run.
    destruct (can_dump e); simpl; [now destruct (can_read e')|reflexivity].
  - intros ->. reflexivity.
Qed.

(** X13: a failed read costs the stored records.  When the file is missing,
    cannot be read or does not decode, [save_entry] takes the history to be
    empty; if its write succeeds, the file then holds the new entry alone,
    whatever it held before. *)
Theorem save_entry_after_failed_read (e : env) (entry : json) (d : disk) :
  d = None \/ d = Some Garbled \/ can_read e = false ->
  write_succeeds e ->
  save_entry e entry d = (Return tt, Some (Doc (JList [entry]))).
Proof.
  intros Hd [Ho Hw].
  assert (L : loaded e d = JList []).
  { destruct Hd as [->|[->|Hr]]; try reflexivity.
    unfold loaded. rewrite Hr. now destruct d as [[|v]|]. }
  rewrite (save_entry_run _ _ _ _ L), write_back_run, Ho, Hw. reflexivity.
Qed.

Lemma save_entry_after_failed_read_witness :
  save_entry (mkEnv false true true) new_entry
    (Some (Doc (JList [sample_entry; sample_entry])))
  = (Return tt, Some (Doc (JList [new_entry]))).
Proof.
  apply save_entry_after_failed_read.
  - right; right. reflexivity.
  - split; reflexivity.
Defined.

Lemma save_entry_writes e entry d items :
  write_succeeds e ->
  loaded e d = JList items ->
  save_entry e entry d = (Return tt, Some (Doc (JList (items ++ [entry])))).
Proof.
  intros [Ho Hw] L.
  rewrite (save_entry_run _ _ _ _ L), write_back_run, Ho, Hw. reflexivity.
Qed.

(** Successive calls of [save_entry], one for each entry of a list. *)
Fixpoint save_all (e : env) (entries : list json) : IO disk unit :=
  match entries with
  | [] => ret tt
  | entry :: rest => save_entry e entry ;; save_all e rest
  end.

(** X14: the history grows in the order of the saves.  When reads and writes
    succeed and the file holds a list (or does not exist or does not decode,
    which counts as the empty list), saving any number of entries one after
    the other leaves the old records in place, followed by the new ones in
    the order they were saved. *)
Theorem save_all_appends_in_order (e : env) (entries : list json) :
  forall (d : disk) (items : list json),
  can_read e = true ->
  write_succeeds e ->
  fst (load_history e d) = Return (JList items) ->
  exists d',
    save_all e entries d = (Return tt, d')
    /\ load_history e d' = (Return (JList (items ++ entries)), d').
Proof.
  induction entries as [|entry rest IH]; intros d items Hr Hw Hl.
  - exists d. split; [reflexivity|].
    rewrite app_nil_r. apply load_history_list in Hl.
    rewrite load_history_run. now rewrite Hl.
  - apply load_history_list in Hl.
    pose proof (save_entry_writes e entry d items Hw Hl) as Hs.
    destruct (IH (Some (Doc (JList (items ++ [entry])))) (items ++ [entry])%list
                Hr Hw) as [d' [Hs' Hl']].
    { rewrite load_history_run. simpl. now rewrite Hr. }
    exists d'. split.
    + simpl. unfold bind. rewrite Hs. exact Hs'.
    + now rewrite <- app_assoc in Hl'.
Qed.

Lemma save_all_appends_in_order_witness :
  exists d',
    save_all reads [sample_entry; new_entry] None = (Return tt, d')
    /\ load_history reads d' = (Return (JList [sample_entry; new_entry]), d').
Proof.
  apply (save_all_appends_in_order reads [sample_entry; new_entry] None []).
  - reflexivity.
  - split; reflexivity.
  - reflexivity.
Defined.

End HistoryExtras.

(** ** Properties of the quote of the day *)

Module QuotesExtras.
Import Py Quotes.

Lemma QUOTES_length : Z.of_nat (length QUOTES) = 7.
Proof. reflexivity. Qed.

(** The quote at a position of the week. *)
Lemma quote_at (o : Z) :
  exists k, (k < 7)%nat /\ o mod 7 = Z.of_nat k
            /\ get_daily_quote o = py_index QUOTES (Z.of_nat k).
Proof.
  exists (Z.to_nat (o mod 7)).
  pose proof (Z.mod_pos_bound o 7 ltac:(lia)) as B.
  rewrite Z2Nat.id by lia.
  split; [lia|]. split; [reflexivity|].
  unfold get_daily_quote. now rewrite QUOTES_length.
Qed.

Lemma week_days (k : nat) :
  (k < 7)%nat ->
  k = 0%nat \/ k = 1%nat \/ k = 2%nat \/ k = 3%nat \/ k = 4%nat
  \/ k = 5%nat \/ k = 6%nat.
Proof. lia. Qed.

Ltac week_days k H :=
  destruct (week_days k H) as [->|[->|[->|[->|[->|[->| ->]]]]]].

(** X15: [get_daily_quote] never raises [IndexError].  For every ordinal of
    a day, also zero or negative, it returns one of the seven quotes. *)
Theorem get_daily_quote_in_range (o : Z) :
  exists q, get_daily_quote o = Return q /\ In q QUOTES.
Proof.
  destruct (quote_at o) as [k [Hk [_ ->]]].
  week_days k Hk; eexists; (split; [reflexivity|]); simpl; tauto.
Qed.

(** X16: the quote changes every day and comes back after a week.  Two days
    have the same quote exactly when their ordinals differ by a multiple of
    seven; so the next day's quote is another one, and the quote of a day is
    that of seven days later. *)
Theorem get_daily_quote_weekly (o1 o2 : Z) :
  (get_daily_quote o1 = get_daily_quote o2 <-> o1 mod 7 = o2 mod 7)
  /\ get_daily_quote (o1 + 1) <> get_daily_quote o1
  /\ get_daily_quote (o1 + 7) = get_daily_quote o1.
Proof.
  assert (A : forall a b,
    get_daily_quote a = get_daily_quote b <-> a mod 7 = b mod 7).
  { intros a b.
    destruct (quote_at a) as [k [Hk [Ek ->]]].
    destruct (quote_at b) as [j [Hj [Ej ->]]].
    rewrite Ek, Ej.
    week_days k Hk; week_days j Hj; split; intros H;
      solve [reflexivity | discriminate H]. }
  split; [apply A|]. split.
  - rewrite A. intros H.
    rewrite <- Zplus_mod_idemp_l in H.
    pose proof (Z.mod_pos_bound o1 7 ltac:(lia)) as B.
    destruct (Z.eq_dec (o1 mod 7) 6) as [E|E].
    + rewrite E in H. discriminate H.
    + rewrite Z.mod_small in H by lia. lia.
  - apply A. rewrite <- (Z.mul_1_l 7) at 1. apply Z.mod_add. lia.
Qed.

(** X17: every quote has its day in every week.  Among any seven days in a
    row, each of the seven quotes is the quote of one of them. *)
Theorem every_quote_each_week (q : string) (start : Z) :
  In q QUOTES ->
  exists o, start <= o < start + 7 /\ get_daily_quote o = Return q.
Proof.
  intros H.
  assert (K : exists k, 0 <= k < 7 /\ py_index QUOTES k = Return q).
  { simpl in H.
    destruct H as [H|[H|[H|[H|[H|[H|[H|[]]]]]]]]; subst q;
      [exists 0|exists 1|exists 2|exists 3|exists 4|exists 5|exists 6];
      (split; [lia|reflexivity]). }
  destruct K as [k [Hk Hq]].
  exists (start + (k - start) mod 7).
  pose proof (Z.mod_pos_bound (k - start) 7 ltac:(lia)) as B.
  split; [lia|].
  unfold get_daily_quote. rewrite QUOTES_length.
  replace ((start + (k - start) mod 7) mod 7) with k; [exact Hq|].
  rewrite Zplus_mod_idemp_r.
  replace (start + (k - start)) with k by lia.
  now rewrite Z.mod_small.
Qed.

Lemma every_quote_each_week_witness :
  exists o, 739000 <= o < 739000 + 7
            /\ get_daily_quote o
               = Return "Energy first: hydrate, breathe, then start.".
Proof.
  apply (every_quote_each_week
           "Energy first: hydrate, breathe, then start." 739000).
  simpl. tauto.
Defined.

End QuotesExtras.

(** ** Further properties of the enrichment *)

Module GeminiExtras.
Import PyStr Py Gemini.

Section Enrich.

Variable World : Type.
Variable generate_text : string -> string -> IO World Response.

(** The one call [gemini_enrich] makes. *)
Definition the_call (prompt_extra : string) : IO World Response :=
  generate_text "models/text-bison-001" (enrich_prompt prompt_extra).

(** X18: the answer of the service.  With client and key configured, when
    the call returns a response, [gemini_enrich] returns its [text] attribute
    if that is a non-empty string and [str(resp)] otherwise; the text it
    returns is empty only if [str(resp)] is empty. *)
Theorem gemini_enrich_returns_text (cfg : config) (prompt_extra : string)
    (w w' : World) (resp : Response) :
  GOOGLE_GENAI_AVAILABLE cfg = true ->
  key_set (GEMINI_API_KEY cfg) = true ->
  the_call prompt_extra w = (Return resp, w') ->
  exists text,
    gemini_enrich World generate_text cfg prompt_extra w
      = (Return (Some text), w')
    /\ text = match text_attr resp with
              | Some (String c s) => String c s
              | _ => as_str resp
              end
    /\ (truthy text = false -> as_str resp = "").
Proof.
  unfold the_call. intros Ha Hk Hc.
  unfold gemini_enrich, try_except_Exception, bind, ret.
  rewrite Ha, Hk. simpl. rewrite Hc.
  eexists. split; [reflexivity|].
  destruct (text_attr resp) as [[|c s]|]; simpl; split; try reflexivity;
    try discriminate; now destruct (as_str resp).
Qed.

(** X19: when the service is reached.  With [GOOGLE_GENAI_AVAILABLE] as the
    module sets it at load time, [gemini_enrich] calls the service exactly
    when the import succeeded, a non-empty key is set and [genai.configure]
    succeeded: the world it leaves is then the one the call leaves, and
    otherwise the world is untouched and the result is [None]. *)
Theorem gemini_enrich_reaches_service (import_ok configure_ok : bool)
    (k : option string) (prompt_extra : string) (w : World) :
  let cfg := mkConfig (init_available import_ok k configure_ok) k in
  snd (gemini_enrich World generate_text cfg prompt_extra w)
  = (if import_ok && key_set k && configure_ok
     then snd (the_call prompt_extra w) else w)
  /\ (import_ok && key_set k && configure_ok = false ->
      gemini_enrich World generate_text cfg prompt_extra w = (Return None, w)).
Proof.
  unfold gemini_enrich, init_available, the_call, try_except_Exception, bind, ret.
  simpl.
  destruct import_ok, (key_set k), configure_ok; simpl;
    (split; [|intros H; (reflexivity || discriminate H)]);
    try reflexivity.
  destruct (generate_text _ _ w) as [[resp|e] w']; simpl; [reflexivity|].
  now destruct (is_Exception e).
Qed.

End Enrich.

Lemma gemini_enrich_returns_text_witness :
  exists text,
    gemini_enrich unit
      (fun _ _ w => (Return (mkResponse (Some "") "Response(1)"), w))
      (mkConfig true (Some "key")) "Subject: Algebra" tt
    = (Return (Some text), tt)
    /\ text = "Response(1)".
Proof.
  destruct (gemini_enrich_returns_text unit
              (fun _ _ w => (Return (mkResponse (Some "") "Response(1)"), w))
              (mkConfig true (Some "key")) "Subject: Algebra" tt tt
              (mkResponse (Some "") "Response(1)")
              eq_refl eq_refl eq_refl) as [text [H [E _]]].
  exists text. split; [exact H|exact E].
Defined.

End GeminiExtras.

(** ** Properties of the page *)

Module AppExtras.
Import PyStr PyStrFacts PyStrNormal Py Agent History HistoryClaims Gemini
  GeminiClaims App.
Open Scope io_scope.

Section Page.

Variable World : Type.
Variable generate_text : string -> string -> IO World Response.

(** The values the page computes from a form. *)
Definition context_subject (f : form) : string :=
  str_or (strip (subject f)) "your topic".

Definition analysis_of (f : form) : string :=
  analyze_reason_local (context_subject f) (difficulty f) (reason_text f)
    (mood f) (time_available f).

Definition plan_of (f : form) : PlanResult :=
  build_plan_local (context_subject f) (difficulty f) (reason_text f)
    (mood f) (time_available f).

Definition entry_of (now : string) (f : form) : json :=
  make_entry now (context_subject f) (difficulty f) (reason_text f) (mood f)
    (time_available f) (analysis_of f) (today_tasks (plan_of f)).

(** The widgets of the numbered tasks. *)
Fixpoint numbered (i : Z) (tasks : list string) : list widget :=
  match tasks with
  | [] => []
  | t_task :: rest =>
      Write (str_of_int i ++ ". " ++ t_task) :: numbered (i + 1) rest
  end.

Definition plan_widgets (f : form) : list widget :=
  ([Markdown "**Why you might be struggling**"; Write (analysis_of f);
    Markdown "**Motivational message**";
    Info (motivational_message (plan_of f));
    Markdown "**Today's Tasks**"]
   ++ numbered 1 (today_tasks (plan_of f))
   ++ [Markdown "**Weekly Plan (skeleton)**"; Table (weekly_plan (plan_of f))])%list.

Definition ai_heading : widget :=
  Markdown "**AI (optional) — enriched suggestion**".

Definition enrich_widgets (o : option string) : list widget :=
  match o with
  | Some (String c s) => [ai_heading; Write (String c s)]
  | _ => []
  end.

Definition saved_box : widget := Success "Saved plan to history.".

(** The three parts of the submitted page, one after the other. *)
Definition enrich_step (cfg : config) (f : form) : IO (state World) (option string) :=
  if GOOGLE_GENAI_AVAILABLE cfg && key_set (GEMINI_API_KEY cfg) then
    try_except_Exception
      (let prompt_extra :=
         "Subject: " ++ context_subject f ++ newline
         ++ "Difficulty: " ++ difficulty f ++ newline
         ++ "Reason: " ++ reason_text f ++ newline
         ++ "Mood: " ++ mood f ++ newline
         ++ "Time available (min): " ++ str_of_int (time_available f) in
       on_service (gemini_enrich World generate_text cfg prompt_extra))
      (ret None)
  else ret None.

Definition save_step (e : env) (now : string) (f : form) : IO (state World) unit :=
  if save_to_history f then
    on_files (save_entry e (entry_of now f)) ;;
    show saved_box
  else ret tt.

Definition add_widgets (st : state World) (ws : list widget) : state World :=
  mkState (files st) (service st) (screen st ++ ws).

Lemma write_tasks_run tasks : forall i (st : state World),
  write_tasks i tasks st = (Return tt, add_widgets st (numbered i tasks)).
Proof.
  induction tasks as [|t_task rest IH]; intros i st.
  - unfold add_widgets. simpl. rewrite app_nil_r. now destruct st.
  - simpl. unfold bind, show. rewrite IH. unfold add_widgets. simpl.
    now rewrite <- app_assoc.
Qed.

Lemma bind_show {A} w (k : unit -> IO (state World) A) (st : state World) :
  bind (show w) k st = k tt (add_widgets st [w]).
Proof. reflexivity. Qed.

Lemma bind_write_tasks {A} i tasks (k : unit -> IO (state World) A) (st : state World) :
  bind (write_tasks i tasks) k st = k tt (add_widgets st (numbered i tasks)).
Proof. unfold bind. now rewrite write_tasks_run. Qed.

Lemma add_widgets_app (st : state World) a b :
  add_widgets (add_widgets st a) b = add_widgets st (a ++ b).
Proof. unfold add_widgets. simpl. now rewrite <- app_assoc. Qed.

Lemma your_plan_steps cfg e now f (st : state World) :
  your_plan generate_text cfg e now true f st
  = match enrich_step cfg f (add_widgets st (plan_widgets f)) with
    | (Return o, st1) => save_step e now f (add_widgets st1 (enrich_widgets o))
    | (Raise x, st1) => (Raise x, st1)
    end.
Proof.
  change (your_plan generate_text cfg e now true f)
    with (show (Markdown "**Why you might be struggling**") ;;
          show (Write (analysis_of f)) ;;
          show (Markdown "**Motivational message**") ;;
          show (Info (motivational_message (plan_of f))) ;;
          show (Markdown "**Today's Tasks**") ;;
          write_tasks 1 (today_tasks (plan_of f)) ;;
          show (Markdown "**Weekly Plan (skeleton)**") ;;
          show (Table (weekly_plan (plan_of f))) ;;
          enriched_text <- enrich_step cfg f ;;
          (if opt_truthy enriched_text then
             show ai_heading ;;
             show (Write (match enriched_text with Some s => s | None => "" end))
           else ret tt) ;;
          save_step e now f).
  do 5 (rewrite bind_show; cbv beta).
  rewrite bind_write_tasks; cbv beta.
  do 2 (rewrite bind_show; cbv beta).
  rewrite !add_widgets_app.
  change (add_widgets st _) with (add_widgets st (plan_widgets f)).
  unfold bind at 1.
  destruct (enrich_step cfg f (add_widgets st (plan_widgets f)))
    as [[o|x] st1]; [|reflexivity].
  destruct o as [[|c s]|].
  - unfold bind at 1. unfold enrich_widgets, add_widgets. simpl opt_truthy.
    cbv iota. unfold ret at 1. rewrite app_nil_r. now destruct st1.
  - change (opt_truthy (Some (String c s))) with true. cbv iota.
    unfold bind at 1 2. unfold show at 1 2. cbv beta iota.
    unfold enrich_widgets, add_widgets. cbn [files service screen].
    now rewrite <- app_assoc.
  - unfold bind at 1. unfold enrich_widgets, add_widgets. simpl opt_truthy.
    cbv iota. unfold ret at 1. rewrite app_nil_r. now destruct st1.
Qed.

(** The service fails with errors only: what it raises derives from
    [Exception]. *)
Definition raises_errors_only : Prop :=
  forall model prompt w x w',
    generate_text model prompt w = (Raise x, w') -> is_Exception x = true.

Lemma enrich_step_frame cfg f (st : state World) :
  exists r w',
    enrich_step cfg f st = (r, mkState (files st) w' (screen st))
    /\ (unconfigured cfg -> r = Return None /\ w' = service st)
    /\ (raises_errors_only -> exists o, r = Return o).
Proof.
  unfold enrich_step, unconfigured.
  destruct (GOOGLE_GENAI_AVAILABLE cfg) eqn:Ha;
    [destruct (key_set (GEMINI_API_KEY cfg)) eqn:Hk|]; simpl.
  - unfold try_except_Exception, on_service, gemini_enrich.
    rewrite Ha, Hk. simpl.
    unfold try_except_Exception, bind.
    match goal with |- context [generate_text ?m ?p (service st)] =>
      destruct (generate_text m p (service st)) as [[resp|x] w'] eqn:Hc end.
    + simpl. eexists _, w'. split; [reflexivity|]. split.
      * intros [H|H]; discriminate H.
      * intros _. eexists. reflexivity.
    + destruct (is_Exception x) eqn:Hx; simpl.
      * eexists _, w'. split; [reflexivity|]. split.
        -- intros [H|H]; discriminate H.
        -- intros _. eexists. reflexivity.
      * rewrite Hx. eexists _, w'. split; [reflexivity|]. split.
        -- intros [H|H]; discriminate H.
        -- intros H. apply H in Hc. congruence.
  - exists (Return None), (service st). split; [now destruct st|]. split.
    + now intros _.
    + intros _. now exists None.
  - exists (Return None), (service st). split; [now destruct st|]. split.
    + now intros _.
    + intros _. now exists None.
Qed.

Lemma save_step_run e now f (st : state World) :
  save_step e now f st
  = if save_to_history f then
      match save_entry e (entry_of now f) (files st) with
      | (Return _, d) =>
          (Return tt, mkState d (service st) (screen st ++ [saved_box]))
      | (Raise x, d) => (Raise x, mkState d (service st) (screen st))
      end
    else (Return tt, st).
Proof.
  unfold save_step. destruct (save_to_history f); [|reflexivity].
  unfold bind, on_files, show.
  now destruct (save_entry e (entry_of now f) (files st)) as [[[]|x] d].
Qed.

(** The submitted page, in one piece: the plan is shown, then the
    enrichment runs, then the save. *)
Lemma your_plan_run cfg e now f (st : state World) :
  exists r w',
    (unconfigured cfg -> r = Return None /\ w' = service st)
    /\ (raises_errors_only -> exists o, r = Return o)
    /\ your_plan generate_text cfg e now true f st
       = match r with
         | Return o =>
             save_step e now f
               (mkState (files st) w'
                  (screen st ++ plan_widgets f ++ enrich_widgets o))
         | Raise x =>
             (Raise x, mkState (files st) w' (screen st ++ plan_widgets f))
         end.
Proof.
  rewrite your_plan_steps.
  destruct (enrich_step_frame cfg f (add_widgets st (plan_widgets f)))
    as [r [w' [E [U S]]]].
  exists r, w'. split; [exact U|]. split; [exact S|].
  rewrite E. destruct r as [o|x]; [|reflexivity].
  unfold add_widgets. cbn [files service screen]. now rewrite <- app_assoc.
Qed.

Lemma numbered_no_box b i tasks : ~ In (Success b) (numbered i tasks).
Proof.
  revert i. induction tasks as [|t_task rest IH]; intros i; simpl; [tauto|].
  intros [H|H]; [discriminate H|exact (IH _ H)].
Qed.

Lemma numbered_no_heading i tasks : ~ In ai_heading (numbered i tasks).
Proof.
  revert i. induction tasks as [|t_task rest IH]; intros i; simpl; [tauto|].
  intros [H|H]; [discriminate H|exact (IH _ H)].
Qed.

Lemma plan_widgets_no_box b f : ~ In (Success b) (plan_widgets f).
Proof.
  unfold plan_widgets. rewrite !in_app_iff. simpl.
  intros [H|[H|H]]; [|exact (numbered_no_box _ _ _ H)|];
    repeat (destruct H as [H|H]; [discriminate H|]); exact H.
Qed.

Lemma plan_widgets_no_heading f : ~ In ai_heading (plan_widgets f).
Proof.
  unfold plan_widgets. rewrite !in_app_iff. simpl.
  intros [H|[H|H]]; [|exact (numbered_no_heading _ _ H)|];
    repeat (destruct H as [H|H]; [discriminate H|]); exact H.
Qed.

Lemma enrich_widgets_no_box b o : ~ In (Success b) (enrich_widgets o).
Proof.
  destruct o as [[|c s]|]; simpl; try tauto.
  intros [H|[H|[]]]; discriminate H.
Qed.

Lemma numbered_nth tasks : forall i k task,
  nth_error tasks k = Some task ->
  In (Write (str_of_int (i + Z.of_nat k) ++ ". " ++ task)) (numbered i tasks).
Proof.
  induction tasks as [|t_task rest IH]; intros i k task H.
  - now destruct k.
  - destruct k as [|k]; simpl in H.
    + injection H as ->. left. now rewrite Z.add_0_r.
    + right. replace (i + Z.of_nat (S k)) with ((i + 1) + Z.of_nat k) by lia.
      now apply IH.
Qed.

(** The analysis and the plan of the form as typed: the page normalises
    the subject before it calls the agent, which changes neither. *)
Lemma analysis_of_raw f :
  analysis_of f
  = analyze_reason_local (subject f) (difficulty f) (reason_text f) (mood f)
      (time_available f).
Proof. reflexivity. Qed.

Lemma plan_of_raw f :
  plan_of f
  = build_plan_local (subject f) (difficulty f) (reason_text f) (mood f)
      (time_available f).
Proof.
  unfold plan_of, build_plan_local. cbv zeta.
  change (str_or (strip (context_subject f)) "your topic")
    with (PlanExtras.normal_subject (PlanExtras.normal_subject (subject f))).
  now rewrite PlanExtras.normal_subject_idem.
Qed.

(** X20: the plan is shown before anything can fail.  Whatever the service
    and the file system do, after a submit the screen holds the analysis of
    the form, the motivational message and every task of the day, numbered
    from 1 in the order of the plan. *)
Theorem submitted_page_shows_plan cfg e now f (st : state World) :
  let st' := snd (your_plan generate_text cfg e now true f st) in
  let plan := build_plan_local (subject f) (difficulty f) (reason_text f)
                (mood f) (time_available f) in
  In (Write (analyze_reason_local (subject f) (difficulty f) (reason_text f)
               (mood f) (time_available f))) (screen st')
  /\ In (Info (motivational_message plan)) (screen st')
  /\ In (Table (weekly_plan plan)) (screen st')
  /\ forall k task,
       nth_error (today_tasks plan) k = Some task ->
       In (Write (str_of_int (Z.of_nat k + 1) ++ ". " ++ task)) (screen st').
Proof.
  cbv zeta. rewrite <- analysis_of_raw, <- plan_of_raw.
  assert (P : forall w, In w (plan_widgets f) ->
    In w (screen (snd (your_plan generate_text cfg e now true f st)))).
  { intros w Hw.
    destruct (your_plan_run cfg e now f st) as [r [w' [_ [_ E]]]].
    rewrite E. destruct r as [o|x].
    - rewrite save_step_run.
      destruct (save_to_history f);
        [destruct (save_entry _ _ _) as [[[]|x] d]|];
        cbn [snd screen]; rewrite ?in_app_iff; tauto.
    - cbn [snd screen]. rewrite in_app_iff. tauto. }
  repeat split; try (apply P; unfold plan_widgets; rewrite !in_app_iff;
                     simpl; tauto).
  intros k task H. apply P. unfold plan_widgets. rewrite !in_app_iff.
  right; left. rewrite Z.add_comm. now apply numbered_nth.
Qed.

(** X21: the success box does not tell whether the record was saved.  With
    the save ticked and a history that loads as a list, a submit whose write
    fails still returns normally and ends with "Saved plan to history."; the
    file is then unchanged (the open failed) or truncated (the write failed),
    so the new record is not in it. *)
Theorem saved_box_despite_failed_write cfg e now f (st : state World) items :
  raises_errors_only ->
  save_to_history f = true ->
  fst (load_history e (files st)) = Return (JList items) ->
  write_fails e ->
  exists st',
    your_plan generate_text cfg e now true f st = (Return tt, st')
    /\ last (screen st') ai_heading = saved_box
    /\ (files st' = files st \/ files st' = Some Garbled).
Proof.
  intros S Hs Hl Hf.
  destruct (your_plan_run cfg e now f st) as [r [w' [_ [R E]]]].
  destruct (R S) as [o ->]. rewrite E, save_step_run, Hs.
  cbn [files service screen].
  apply load_history_list in Hl.
  rewrite (save_entry_run _ _ _ _ Hl), write_back_run.
  eexists. split; [reflexivity|]. cbn [files screen]. split.
  - now rewrite last_last.
  - destruct Hf as [H|H].
    + rewrite H. now left.
    + rewrite H. destruct (can_open_w e); [now right|now left].
Qed.

(** X22: what a submit stores.  With the save ticked, the read and the
    write of [save_entry] succeeding, a history that loads as a list, and a
    subject, difficulty and mood of ASCII characters, a later [load_history]
    whose read succeeds returns the stored records followed by one new record:
    the timestamp, the normalised subject, the difficulty, reason and mood as
    typed, the time, the analysis that was shown and the tasks of the plan. *)
Theorem submitted_record_is_stored cfg e now f (st : state World) items :
  raises_errors_only ->
  save_to_history f = true ->
  is_ascii (subject f) = true ->
  is_ascii (difficulty f) = true ->
  is_ascii (mood f) = true ->
  can_read e = true ->
  write_succeeds e ->
  fst (load_history e (files st)) = Return (JList items) ->
  exists st',
    your_plan generate_text cfg e now true f st = (Return tt, st')
    /\ forall e', can_read e' = true ->
         fst (load_history e' (files st'))
         = Return (JList (items ++ [
             make_entry now (str_or (strip (subject f)) "your topic")
               (difficulty f) (reason_text f) (mood f) (time_available f)
               (analyze_reason_local (subject f) (difficulty f)
                  (reason_text f) (mood f) (time_available f))
               (today_tasks
                  (build_plan_local (subject f) (difficulty f)
                     (reason_text f) (mood f) (time_available f)))])).
Proof.
  intros S Hs _ _ _ _ [Ho Hd] Hl.
  destruct (your_plan_run cfg e now f st) as [r [w' [_ [R E]]]].
  destruct (R S) as [o ->]. rewrite E, save_step_run, Hs.
  cbn [files service screen].
  apply load_history_list in Hl.
  rewrite (save_entry_run _ _ _ _ Hl), write_back_run, Ho, Hd.
  eexists. split; [reflexivity|]. cbn [files].
  intros e' Hr. rewrite load_history_run. cbn [fst loaded]. rewrite Hr.
  unfold entry_of. now rewrite plan_of_raw.
Qed.

(** X23: a history file that is no list breaks the page after the plan is
    shown.  With the save ticked, when the file decodes to a JSON value other
    than a list, the submit raises [AttributeError]; the file is unchanged and
    no success box is added. *)
Theorem submit_on_non_list_history cfg e now f (st : state World) v :
  raises_errors_only ->
  save_to_history f = true ->
  can_read e = true ->
  files st = Some (Doc v) ->
  (forall items, v <> JList items) ->
  exists st',
    your_plan generate_text cfg e now true f st = (Raise AttributeError, st')
    /\ files st' = files st
    /\ (forall b, In (Success b) (screen st') -> In (Success b) (screen st)).
Proof.
  intros S Hs Hr Hf Hv.
  destruct (your_plan_run cfg e now f st) as [r [w' [_ [R E]]]].
  destruct (R S) as [o ->]. rewrite E, save_step_run, Hs.
  cbn [files service screen].
  rewrite save_entry_not_a_list.
  - eexists. split; [reflexivity|]. split; [reflexivity|].
    cbn [screen]. intros b. rewrite !in_app_iff. intros [H|[H|H]].
    + exact H.
    + destruct (plan_widgets_no_box _ _ H).
    + destruct (enrich_widgets_no_box _ _ H).
  - intros items. rewrite Hf. simpl. rewrite Hr. apply Hv.
Qed.

(** X24: nothing is written unless the save is ticked.  With the save not
    ticked a submit returns normally, leaves the file as it is and shows no
    success box. *)
Theorem submit_without_save cfg e now f (st : state World) :
  raises_errors_only ->
  save_to_history f = false ->
  exists st',
    your_plan generate_text cfg e now true f st = (Return tt, st')
    /\ files st' = files st
    /\ (forall b, In (Success b) (screen st') -> In (Success b) (screen st)).
Proof.
  intros S Hs.
  destruct (your_plan_run cfg e now f st) as [r [w' [_ [R E]]]].
  destruct (R S) as [o ->]. rewrite E, save_step_run, Hs.
  eexists. split; [reflexivity|]. split; [reflexivity|].
  cbn [screen]. intros b. rewrite !in_app_iff. intros [H|[H|H]].
  - exact H.
  - destruct (plan_widgets_no_box _ _ H).
  - destruct (enrich_widgets_no_box _ _ H).
Qed.

(** X25: without client or key the page does not touch the service.  The
    state of the service after a submit is the one before, and the heading of
    the enriched suggestion is not added to the screen. *)
Theorem unconfigured_submit_skips_service cfg e now f (st : state World) :
  unconfigured cfg ->
  let st' := snd (your_plan generate_text cfg e now true f st) in
  service st' = service st
  /\ (In ai_heading (screen st') -> In ai_heading (screen st)).
Proof.
  intros U. cbv zeta.
  destruct (your_plan_run cfg e now f st) as [r [w' [Hu [_ E]]]].
  destruct (Hu U) as [-> ->]. rewrite E, save_step_run.
  assert (N : forall tail,
    (forall w, In w tail -> w = saved_box) ->
    In ai_heading ((screen st ++ plan_widgets f ++ enrich_widgets None) ++ tail)
    -> In ai_heading (screen st)).
  { intros tail T. rewrite !in_app_iff. simpl.
    intros [[H|[H|[]]]|H]; [exact H| |].
    - destruct (plan_widgets_no_heading _ H).
    - apply T in H. discriminate H. }
  destruct (save_to_history f);
    [destruct (save_entry _ _ _) as [[[]|x] d]|]; cbn [snd service screen];
    (split; [reflexivity|]).
  - apply N. intros w [<-|[]]. reflexivity.
  - intros H. apply (N []); [intros w []|]. now rewrite app_nil_r.
  - intros H. apply (N []); [intros w []|]. now rewrite app_nil_r.
Qed.

End Page.

(** A service that is down: every call fails with a network error. *)
Definition service_down : string -> string -> IO unit Response :=
  fun _ _ w => (Raise OSError, w).

Lemma service_down_raises_errors_only : raises_errors_only unit service_down.
Proof. intros model prompt w x w' H. now injection H as <- _. Qed.

Definition sample_form : form :=
  mkForm "  Linear Algebra " "Hard" "too many formulas" "Tired" 20 true.

Definition sample_config : config := mkConfig true (Some "key").

Lemma saved_box_despite_failed_write_witness :
  exists st',
    your_plan service_down sample_config (mkEnv true false true) "2024-05-01"
      true sample_form (mkState (Some (Doc (JList [sample_entry]))) tt [])
    = (Return tt, st')
    /\ last (screen st') (ai_heading) = saved_box
    /\ files st' = Some (Doc (JList [sample_entry])).
Proof.
  destruct (saved_box_despite_failed_write unit service_down sample_config
              (mkEnv true false true) "2024-05-01" sample_form
              (mkState (Some (Doc (JList [sample_entry]))) tt [])
              [sample_entry] service_down_raises_errors_only
              eq_refl eq_refl (or_introl eq_refl)) as [st' [H [L F]]].
  exists st'. split; [exact H|]. split; [exact L|].
  vm_compute in H. injection H as <-. reflexivity.
Defined.

Lemma submitted_record_is_stored_witness :
  exists st',
    your_plan service_down sample_config reads "2024-05-01"
      true sample_form (mkState None tt [])
    = (Return tt, st')
    /\ exists analysis tasks,
         fst (load_history reads (files st'))
         = Return (JList [make_entry "2024-05-01" "Linear Algebra" "Hard"
                            "too many formulas" "Tired" 20 analysis tasks]).
Proof.
  destruct (submitted_record_is_stored unit service_down sample_config
              reads "2024-05-01" sample_form (mkState None tt []) []
              service_down_raises_errors_only eq_refl eq_refl eq_refl
              eq_refl eq_refl (conj eq_refl eq_refl) eq_refl)
    as [st' [H L]].
  exists st'. split; [exact H|].
  eexists _, _. rewrite (L reads eq_refl). reflexivity.
Defined.

Lemma submit_on_non_list_history_witness :
  exists st',
    your_plan service_down sample_config reads "2024-05-01"
      true sample_form (mkState (Some (Doc (JStr "notes"))) tt [])
    = (Raise AttributeError, st')
    /\ files st' = Some (Doc (JStr "notes")).
Proof.
  destruct (submit_on_non_list_history unit service_down sample_config
              reads "2024-05-01" sample_form
              (mkState (Some (Doc (JStr "notes"))) tt []) (JStr "notes")
              service_down_raises_errors_only eq_refl eq_refl eq_refl
              ltac:(intros items H; discriminate H)) as [st' [H [F _]]].
  exists st'. split; [exact H|exact F].
Defined.

Lemma submit_without_save_witness :
  exists st',
    your_plan service_down sample_config reads "2024-05-01" true
      (mkForm "" "Easy" "" "Focused" 60 false)
      (mkState (Some (Doc (JList [sample_entry]))) tt [])
    = (Return tt, st')
    /\ files st' = Some (Doc (JList [sample_entry])).
Proof.
  destruct (submit_without_save unit service_down sample_config reads
              "2024-05-01" (mkForm "" "Easy" "" "Focused" 60 false)
              (mkState (Some (Doc (JList [sample_entry]))) tt [])
              service_down_raises_errors_only eq_refl) as [st' [H [F _]]].
  exists st'. split; [exact H|exact F].
Defined.

Lemma unconfigured_submit_skips_service_witness :
  service
    (snd (your_plan (fun _ _ (w : nat) => (Return (mkResponse None "r"), S w))
            (mkConfig true None) reads "2024-05-01" true sample_form
            (mkState None 0%nat [])))
  = 0%nat.
Proof.
  apply (unconfigured_submit_skips_service nat
           (fun _ _ (w : nat) => (Return (mkResponse None "r"), S w))
           (mkConfig true None) reads "2024-05-01" sample_form
           (mkState None 0%nat [])).
  right. reflexivity.
Defined.

End AppExtras.
